(** * kiagnose: the checkup lifecycle orchestrator and the vm-latency
      parameter validator

    A shallow embedding of [kiagnose/internal/checkup/checkup.go] (the
    resource factory and the [Checkup] life cycle: [New], [Setup], [Run],
    [Results], [Logs], [SetTeardownTimeout], [Teardown]) and of the
    configuration validator of the kubevirt-vm-latency checkup, followed by
    the properties established about them.

    Conventions of the embedding:
    - a Go pointer [*T] is an [option T] ([None] is [nil]);
    - a Go [error] value is represented by its message ([err.Error()]), an
      [error] result by an [option error] ([None] is [nil]);
    - [time.Duration] is its [int64] count of nanoseconds, [float64] is the
      IEEE-754 binary64 format of [SpecFloat];
    - the cluster behind [kubernetes.Interface] is a state threaded through
      every collaborator call, together with the record of the calls made;
    - a nil-pointer dereference is an explicit [Panicked] outcome. *)

From Stdlib Require Import ZArith Lia.
From Stdlib Require Import Floats.SpecFloat.
From stdpp Require Import base strings list gmap.

Open Scope Z_scope.

(** ** Go runtime: [time.Duration] and numeric conversions *)

Module time.

(** [type Duration int64], a count of nanoseconds. *)
Definition Duration := Z.

Definition Nanosecond : Duration := 1.
Definition Second : Duration := 1000000000.
Definition Minute : Duration := 60 * Second.

Definition float64 := spec_float.

(** [float64(z)] for an integer [z]: round to nearest even in binary64. *)
Definition float64_of_int (z : Z) : float64 := binary_normalize 53 1024 z 0 false.

(** [func (d Duration) Seconds() float64]:
    [sec := d / Second; nsec := d % Second;
     return float64(sec) + float64(nsec)/1e9]. *)
Definition Seconds (d : Duration) : float64 :=
  let sec := Z.quot d Second in
  let nsec := Z.rem d Second in
  SFadd 53 1024 (float64_of_int sec)
    (SFdiv 53 1024 (float64_of_int nsec) (float64_of_int 1000000000)).

(** [int64(f)] for a finite [f] in range: the fraction is discarded
    (truncation towards zero). *)
Definition int64_of_float64 (f : float64) : Z :=
  match f with
  | S754_finite s m e =>
      cond_Zopp s
        (match e with
         | Zneg p => Z.shiftr (Zpos m) (Zpos p)
         | _ => Z.shiftl (Zpos m) e
         end)
  | _ => 0
  end.

End time.

(** ** Kubernetes API objects (the fields the orchestrator sets or reads) *)

Module TypeMeta.
Record t := mk { Kind : string; APIVersion : string }.
End TypeMeta.

Module ObjectMeta.
Record t := mk { Name : string; Namespace : string }.
End ObjectMeta.

Module ConfigMap.
Record t := mk { ObjectMeta : ObjectMeta.t }.
End ConfigMap.

Module PolicyRule.
Record t := mk {
  Verbs : list string;
  APIGroups : list string;
  Resources : list string;
  ResourceNames : list string
}.
End PolicyRule.

Module Role.
Record t := mk {
  TypeMeta : TypeMeta.t;
  ObjectMeta : ObjectMeta.t;
  Rules : list PolicyRule.t
}.
End Role.

Module Subject.
Record t := mk { Kind : string; Name : string; Namespace : string }.
End Subject.

Module RoleRef.
Record t := mk { Kind : string; APIGroup : string; Name : string }.
End RoleRef.

Module RoleBinding.
Record t := mk {
  TypeMeta : TypeMeta.t;
  ObjectMeta : ObjectMeta.t;
  Subjects : list Subject.t;
  RoleRef : RoleRef.t
}.
End RoleBinding.

Module EnvVar.
Record t := mk { Name : string; Value : string }.
End EnvVar.

Module Container.
Record t := mk { Name : string; Image : string; Env : list EnvVar.t }.
End Container.

(** [corev1.RestartPolicy] and its three constants. *)
Inductive RestartPolicy :=
| RestartPolicyAlways
| RestartPolicyOnFailure
| RestartPolicyNever.

Module PodSpec.
Record t := mk {
  ServiceAccountName : string;
  RestartPolicy : RestartPolicy;
  TerminationGracePeriodSeconds : option Z;
  Containers : list Container.t
}.
End PodSpec.

Module PodTemplateSpec.
Record t := mk { ObjectMeta : ObjectMeta.t; Spec : PodSpec.t }.
End PodTemplateSpec.

Module JobSpec.
Record t := mk {
  BackoffLimit : option Z;
  ActiveDeadlineSeconds : option Z;
  Template : PodTemplateSpec.t
}.
End JobSpec.

(** [batchv1.JobStatus]: written by the cluster only; the factory leaves
    it at its zero value. *)
Module JobStatus.
Record t := mk { Succeeded : Z; Failed : Z }.
End JobStatus.

Module Job.
Record t := mk {
  ObjectMeta : ObjectMeta.t;
  Spec : JobSpec.t;
  Status : JobStatus.t
}.
End Job.

(** [rbacv1.GroupName] and [rbacv1.ServiceAccountKind]. *)
Definition rbacv1_GroupName : string := "rbac.authorization.k8s.io".
Definition rbacv1_ServiceAccountKind : string := "ServiceAccount".

(** ** [kiagnose/internal/config]: the validated plan handed to [New]

    Its declaration is outside the sources at hand; these are the fields
    [New] reads. *)
Module Config.
Record t := mk {
  UID : string;
  Image : string; Timeout : time.Duration;
  ServiceAccountName : string;
  EnvVars : list EnvVar.t
}.
End Config.

(** ** Package [checkup] *)

Module checkup.

(** A Go [error], by its message. *)
Definition error := string.

(** The string ["\n"]: the single character of code 10. *)
Definition newline : string :=
  String (Ascii.Ascii false true false true false false false false) EmptyString.

(** [fmt.Errorf("%s: %v", errPrefix, err)]. *)
Definition Errorf_prefixed (errPrefix : string) (err : error) : error :=
  errPrefix +:+ ": " +:+ err.

(** *** Resource factory *)

Definition UIDEnvVarName : string := "CHECKUP_UID".
Definition ResultsConfigMapNameEnvVarName : string := "RESULT_CONFIGMAP_NAME".
Definition ResultsConfigMapNameEnvVarNamespace : string := "RESULT_CONFIGMAP_NAMESPACE".

Definition NameResultsConfigMap (checkupName : string) : string :=
  checkupName +:+ "-results".

Definition NameResultsConfigMapWriterRole (checkupName : string) : string :=
  checkupName +:+ "-results-cm-writer".

Definition NameJob (checkupName : string) : string :=
  checkupName +:+ "-checkup".

Definition NewConfigMap (namespaceName name : string) : ConfigMap.t :=
  ConfigMap.mk (ObjectMeta.mk name namespaceName).

Definition newConfigMapWriterPolicyRule (cmName : string) : PolicyRule.t :=
  {| PolicyRule.Verbs := ["get"; "update"; "patch"];
     PolicyRule.APIGroups := [EmptyString];
     PolicyRule.Resources := ["configmaps"];
     PolicyRule.ResourceNames := [cmName] |}.

Definition NewConfigMapWriterRole (namespaceName name configMapName : string) : Role.t :=
  {| Role.TypeMeta := TypeMeta.mk "Role" rbacv1_GroupName;
     Role.ObjectMeta := ObjectMeta.mk name namespaceName;
     Role.Rules := [newConfigMapWriterPolicyRule configMapName] |}.

Definition NewRoleBinding (namespaceName roleName : string) (subject : Subject.t)
  : RoleBinding.t :=
  {| RoleBinding.TypeMeta := TypeMeta.mk "RoleBinding" rbacv1_GroupName;
     RoleBinding.ObjectMeta := ObjectMeta.mk roleName namespaceName;
     RoleBinding.Subjects := [subject];
     RoleBinding.RoleRef := RoleRef.mk "Role" rbacv1_GroupName roleName |}.

Definition NewServiceAccountSubject
  (serviceAccountNamespace serviceAccountName : string) : Subject.t :=
  {| Subject.Kind := rbacv1_ServiceAccountKind;
     Subject.Name := serviceAccountName;
     Subject.Namespace := serviceAccountNamespace |}.

Definition NewCheckupJob (namespaceName name serviceAccountName image : string)
  (activeDeadlineSeconds : Z) (envs : list EnvVar.t) : Job.t :=
  let containerName := "checkup" in
  let checkupContainer := Container.mk containerName image envs in
  let defaultTerminationGracePeriodSeconds := 5 in
  let checkupPodSpec :=
    {| PodTemplateSpec.ObjectMeta := ObjectMeta.mk EmptyString EmptyString;
       PodTemplateSpec.Spec :=
         {| PodSpec.ServiceAccountName := serviceAccountName;
            PodSpec.RestartPolicy := RestartPolicyNever;
            PodSpec.TerminationGracePeriodSeconds :=
              Some defaultTerminationGracePeriodSeconds;
            PodSpec.Containers := [checkupContainer] |} |} in
  let backoffLimit := 0 in
  {| Job.ObjectMeta := ObjectMeta.mk name namespaceName;
     Job.Spec :=
       {| JobSpec.BackoffLimit := Some backoffLimit;
          JobSpec.ActiveDeadlineSeconds := Some activeDeadlineSeconds;
          JobSpec.Template := checkupPodSpec |};
     Job.Status := JobStatus.mk 0 0 |}.

(** *** The orchestrator state

    [client] is the handle on the cluster; the cluster itself is the
    [world] component of [Env] below. *)
Record Checkup := mkCheckup {
  teardownTimeout : time.Duration;
  resultConfigMap : option ConfigMap.t;
  roles : list Role.t;
  roleBindings : list RoleBinding.t;
  jobTimeout : time.Duration;
  job : option Job.t
}.

(** The outcome of a call: it returns, or the goroutine panics. *)
Inductive Outcome (A : Type) :=
| Returned (a : A)
| Panicked.
Arguments Returned {A} a.
Arguments Panicked {A}.

(** [New].  Its first argument, the client, is the handle on the cluster
    and has no counterpart here.  [checkupConfig] is a pointer; it is
    first dereferenced when the service-account subject is built. *)
Definition New (targetNsName name : string) (checkupConfig : option Config.t)
  : Outcome Checkup :=
  let resultsConfigMapName := NameResultsConfigMap name in
  let resultsConfigMapWriterRoleName := NameResultsConfigMapWriterRole name in
  let jobName := NameJob name in
  let checkupRoles :=
    [NewConfigMapWriterRole targetNsName resultsConfigMapWriterRoleName
       resultsConfigMapName] in
  match checkupConfig with
  | None => Panicked
  | Some checkupConfig =>
      let serviceAccountSubject :=
        NewServiceAccountSubject targetNsName (Config.ServiceAccountName checkupConfig) in
      let checkupRoleBindings :=
        fold_left
          (fun acc role =>
             acc ++ [NewRoleBinding targetNsName
                       (ObjectMeta.Name (Role.ObjectMeta role)) serviceAccountSubject])
          checkupRoles [] in
      let checkupEnvVars :=
        [ EnvVar.mk UIDEnvVarName (Config.UID checkupConfig);
          EnvVar.mk ResultsConfigMapNameEnvVarName resultsConfigMapName;
          EnvVar.mk ResultsConfigMapNameEnvVarNamespace targetNsName ]
        ++ Config.EnvVars checkupConfig in
      let defaultTeardownTimeout := time.Minute * 5 in
      Returned
        {| teardownTimeout := defaultTeardownTimeout;
           resultConfigMap := Some (NewConfigMap targetNsName resultsConfigMapName);
           roles := checkupRoles;
           roleBindings := checkupRoleBindings;
           jobTimeout := Config.Timeout checkupConfig;
           job :=
             Some (NewCheckupJob targetNsName jobName
                     (Config.ServiceAccountName checkupConfig)
                     (Config.Image checkupConfig)
                     (time.int64_of_float64 (time.Seconds (Config.Timeout checkupConfig)))
                     checkupEnvVars) |}
  end.

(** *** Collaborators

    The packages [configmap], [rbac], [job] and [results] issue the
    requests to the cluster.  Each of their functions is a transition
    of the cluster state that yields the Go result tuple. *)

(** [results.Results], as the key-value contents read back. *)
Definition results_Results := gmap string string.

Record Collaborators (World : Type) := mkCollaborators {
  configmap_Create_impl :
    World -> option ConfigMap.t -> (option ConfigMap.t * option error) * World;
  configmap_Delete_impl :
    World -> string -> string -> option error * World;
  rbac_CreateRoles_impl :
    World -> list Role.t -> (list Role.t * option error) * World;
  rbac_CreateRoleBindings_impl :
    World -> list RoleBinding.t -> (list RoleBinding.t * option error) * World;
  rbac_DeleteRoleBindings_impl :
    World -> list RoleBinding.t -> option error * World;
  rbac_DeleteRoles_impl :
    World -> list Role.t -> option error * World;
  job_Create_impl :
    World -> option Job.t -> (option Job.t * option error) * World;
  job_WaitForJobToFinish_impl :
    World -> option Job.t -> time.Duration -> (option Job.t * option error) * World;
  job_GetLogs_impl :
    World -> option Job.t -> (string * option error) * World;
  job_DeleteAndWait_impl :
    World -> option Job.t -> time.Duration -> option error * World;
  results_ReadFromConfigMap_impl :
    World -> string -> string -> (results_Results * option error) * World
}.

(** The requests the orchestrator can issue, with their arguments. *)
Inductive Call :=
| ConfigMapCreate (cm : option ConfigMap.t)
| ConfigMapDelete (namespace name : string)
| RbacCreateRoles (rs : list Role.t)
| RbacCreateRoleBindings (rbs : list RoleBinding.t)
| RbacDeleteRoleBindings (rbs : list RoleBinding.t)
| RbacDeleteRoles (rs : list Role.t)
| JobCreate (j : option Job.t)
| JobWaitForJobToFinish (j : option Job.t) (timeout : time.Duration)
| JobGetLogs (j : option Job.t)
| JobDeleteAndWait (j : option Job.t) (timeout : time.Duration)
| ResultsReadFromConfigMap (namespace name : string).

(** What came back from a request. *)
Inductive Response :=
| RespConfigMap (cm : option ConfigMap.t) (err : option error)
| RespRoles (rs : list Role.t) (err : option error)
| RespRoleBindings (rbs : list RoleBinding.t) (err : option error)
| RespJob (j : option Job.t) (err : option error)
| RespLogs (logs : string) (err : option error)
| RespResults (r : results_Results) (err : option error)
| RespDone (err : option error).

Definition resp_err (r : Response) : option error :=
  match r with
  | RespConfigMap _ err | RespRoles _ err | RespRoleBindings _ err
  | RespJob _ err | RespLogs _ err | RespResults _ err | RespDone err => err
  end.

Record Event := mkEvent { ev_call : Call; ev_resp : Response }.

(** The failure an event ended with, if any. *)
Definition ev_failure (ev : Event) : option error := resp_err (ev_resp ev).

(** A line written with [log.Printf]:
    ["checkup job %q Logs:\n%s\n"] with its two arguments. *)
Inductive LogRecord :=
| CheckupJobLogs (jobName logs : string).

Section Orchestrator.

Context {World : Type} (K : Collaborators World).

(** The environment of a run: the cluster, the requests issued so far
    (oldest first) and the process log. *)
Record Env := mkEnv {
  world : World;
  trace : list Event;
  stdlog : list LogRecord
}.

Definition M (A : Type) : Type := Env -> Outcome A * Env.

#[local] Instance M_ret : MRet M := fun A a env => (Returned a, env).

#[local] Instance M_bind : MBind M := fun A B f m env =>
  match m env with
  | (Returned a, env') => f a env'
  | (Panicked, env') => (Panicked, env')
  end.

(** Dereference of a pointer. *)
Definition deref {A : Type} (p : option A) : M A :=
  fun env =>
    match p with
    | Some a => (Returned a, env)
    | None => (Panicked, env)
    end.

Definition invoke {R : Type} (call : Call) (resp : R -> Response)
  (f : World -> R * World) : M R :=
  fun env =>
    let '(r, w) := f (world env) in
    (Returned r,
     {| world := w;
        trace := trace env ++ [mkEvent call (resp r)];
        stdlog := stdlog env |}).

Definition log_Printf (l : LogRecord) : M unit :=
  fun env =>
    (Returned tt,
     {| world := world env; trace := trace env; stdlog := stdlog env ++ [l] |}).

Definition configmap_Create (cm : option ConfigMap.t) :=
  invoke (ConfigMapCreate cm) (fun r => RespConfigMap r.1 r.2)
    (fun w => configmap_Create_impl World K w cm).

Definition configmap_Delete (namespace name : string) :=
  invoke (ConfigMapDelete namespace name) RespDone
    (fun w => configmap_Delete_impl World K w namespace name).

Definition rbac_CreateRoles (rs : list Role.t) :=
  invoke (RbacCreateRoles rs) (fun r => RespRoles r.1 r.2)
    (fun w => rbac_CreateRoles_impl World K w rs).

Definition rbac_CreateRoleBindings (rbs : list RoleBinding.t) :=
  invoke (RbacCreateRoleBindings rbs) (fun r => RespRoleBindings r.1 r.2)
    (fun w => rbac_CreateRoleBindings_impl World K w rbs).

Definition rbac_DeleteRoleBindings (rbs : list RoleBinding.t) :=
  invoke (RbacDeleteRoleBindings rbs) RespDone
    (fun w => rbac_DeleteRoleBindings_impl World K w rbs).

Definition rbac_DeleteRoles (rs : list Role.t) :=
  invoke (RbacDeleteRoles rs) RespDone
    (fun w => rbac_DeleteRoles_impl World K w rs).

Definition job_Create (j : option Job.t) :=
  invoke (JobCreate j) (fun r => RespJob r.1 r.2)
    (fun w => job_Create_impl World K w j).

Definition job_WaitForJobToFinish (j : option Job.t) (timeout : time.Duration) :=
  invoke (JobWaitForJobToFinish j timeout) (fun r => RespJob r.1 r.2)
    (fun w => job_WaitForJobToFinish_impl World K w j timeout).

Definition job_GetLogs (j : option Job.t) :=
  invoke (JobGetLogs j) (fun r => RespLogs r.1 r.2)
    (fun w => job_GetLogs_impl World K w j).

Definition job_DeleteAndWait (j : option Job.t) (timeout : time.Duration) :=
  invoke (JobDeleteAndWait j timeout) RespDone
    (fun w => job_DeleteAndWait_impl World K w j timeout).

Definition results_ReadFromConfigMap (namespace name : string) :=
  invoke (ResultsReadFromConfigMap namespace name) (fun r => RespResults r.1 r.2)
    (fun w => results_ReadFromConfigMap_impl World K w namespace name).

(** *** The life cycle

    A method with receiver [c *Checkup] takes the current value of [*c]
    and returns its value when the method ends along with the result. *)

Definition set_resultConfigMap (cm : option ConfigMap.t) (c : Checkup) : Checkup :=
  {| teardownTimeout := teardownTimeout c; resultConfigMap := cm;
     roles := roles c; roleBindings := roleBindings c;
     jobTimeout := jobTimeout c; job := job c |}.

Definition set_roles (rs : list Role.t) (c : Checkup) : Checkup :=
  {| teardownTimeout := teardownTimeout c; resultConfigMap := resultConfigMap c;
     roles := rs; roleBindings := roleBindings c;
     jobTimeout := jobTimeout c; job := job c |}.

Definition set_roleBindings (rbs : list RoleBinding.t) (c : Checkup) : Checkup :=
  {| teardownTimeout := teardownTimeout c; resultConfigMap := resultConfigMap c;
     roles := roles c; roleBindings := rbs;
     jobTimeout := jobTimeout c; job := job c |}.

Definition set_job (j : option Job.t) (c : Checkup) : Checkup :=
  {| teardownTimeout := teardownTimeout c; resultConfigMap := resultConfigMap c;
     roles := roles c; roleBindings := roleBindings c;
     jobTimeout := jobTimeout c; job := j |}.

Definition Setup (c : Checkup) : M (Checkup * option error) :=
  let errPrefix := "setup" in
  '(cm, err) ← configmap_Create (resultConfigMap c);
  let c := set_resultConfigMap cm c in
  match err with
  | Some err => mret (c, Some (Errorf_prefixed errPrefix err))
  | None =>
      '(rs, err) ← rbac_CreateRoles (roles c);
      let c := set_roles rs c in
      match err with
      | Some err => mret (c, Some (Errorf_prefixed errPrefix err))
      | None =>
          '(rbs, err) ← rbac_CreateRoleBindings (roleBindings c);
          let c := set_roleBindings rbs c in
          match err with
          | Some err => mret (c, Some (Errorf_prefixed errPrefix err))
          | None => mret (c, None)
          end
      end
  end.

Definition Run (c : Checkup) : M (Checkup * option error) :=
  let errPrefix := "run" in
  '(j, err) ← job_Create (job c);
  let c := set_job j c in
  match err with
  | Some err => mret (c, Some (Errorf_prefixed errPrefix err))
  | None =>
      '(updatedJob, err) ← job_WaitForJobToFinish (job c) (jobTimeout c);
      match err with
      | Some err => mret (c, Some (Errorf_prefixed errPrefix err))
      | None => mret (set_job updatedJob c, None)
      end
  end.

Definition Results (c : Checkup) : M (results_Results * option error) :=
  cm ← deref (resultConfigMap c);
  results_ReadFromConfigMap
    (ObjectMeta.Namespace (ConfigMap.ObjectMeta cm))
    (ObjectMeta.Name (ConfigMap.ObjectMeta cm)).

Definition Logs (c : Checkup) : M (option error) :=
  match job c with
  | None => mret (Some "job is nil")
  | Some j =>
      '(logs, err) ← job_GetLogs (job c);
      match err with
      | Some err => mret (Some err)
      | None =>
          _ ← log_Printf (CheckupJobLogs (ObjectMeta.Name (Job.ObjectMeta j)) logs);
          mret None
      end
  end.

Definition SetTeardownTimeout (c : Checkup) (duration : time.Duration) : Checkup :=
  {| teardownTimeout := duration; resultConfigMap := resultConfigMap c;
     roles := roles c; roleBindings := roleBindings c;
     jobTimeout := jobTimeout c; job := job c |}.

(** [if err != nil { errs = append(errs, err) }]. *)
Definition append_if_err (errs : list error) (err : option error) : list error :=
  match err with
  | Some err => errs ++ [err]
  | None => errs
  end.

(** [concentrateErrors]: the messages, each followed by a newline,
    written in turn to a [strings.Builder]. *)
Definition concentrateErrors (errs : list error) : error :=
  fold_left (fun sb err => (sb +:+ err) +:+ newline) errs EmptyString.

Definition Teardown (c : Checkup) : M (option error) :=
  let errs := [] in
  errs ← match job c with
         | Some _ =>
             err ← job_DeleteAndWait (job c) (teardownTimeout c);
             mret (append_if_err errs err)
         | None => mret errs
         end;
  err ← rbac_DeleteRoleBindings (roleBindings c);
  let errs := append_if_err errs err in
  err ← rbac_DeleteRoles (roles c);
  let errs := append_if_err errs err in
  cm ← deref (resultConfigMap c);
  err ← configmap_Delete
          (ObjectMeta.Namespace (ConfigMap.ObjectMeta cm))
          (ObjectMeta.Name (ConfigMap.ObjectMeta cm));
  let errs := append_if_err errs err in
  if (0 <? length errs)%nat then
    let errPrefix := "teardown" in
    mret (Some (Errorf_prefixed errPrefix (concentrateErrors errs)))
  else mret None.

(** *** Callers

    What a caller can do with an instance, one method call at a time.  A
    panic ends the sequence. *)
Inductive Op :=
| OpSetup
| OpRun
| OpResults
| OpLogs
| OpSetTeardownTimeout (duration : time.Duration)
| OpTeardown.

Definition is_Run (op : Op) : bool :=
  match op with
  | OpRun => true
  | _ => false
  end.

Definition call_method (op : Op) (c : Checkup) : M Checkup :=
  match op with
  | OpSetup => r ← Setup c; mret r.1
  | OpRun => r ← Run c; mret r.1
  | OpResults => _ ← Results c; mret c
  | OpLogs => _ ← Logs c; mret c
  | OpSetTeardownTimeout duration => mret (SetTeardownTimeout c duration)
  | OpTeardown => _ ← Teardown c; mret c
  end.

Fixpoint call_methods (ops : list Op) (c : Checkup) : M Checkup :=
  match ops with
  | [] => mret c
  | op :: ops => c ← call_method op c; call_methods ops c
  end.

End Orchestrator.

Arguments Env World : clear implicits.
Arguments mkEnv {World} world trace stdlog.

(** *** A scripted cluster

    A stand-in for the collaborators, in the manner of client-go's fake
    clientset with reactors: the cluster state is the list of outcomes of
    the requests to come, oldest first ([Some msg] makes the next request
    fail with [msg]; past the end of the list every request succeeds).
    A successful create hands the submitted object back, a failed one
    returns [nil] with the error, as [serviceaccount.Create] of this
    repository does; a successful wait reports one succeeded pod. *)

Definition Script := list (option error).

Definition next_outcome (w : Script) : option error * Script :=
  match w with
  | [] => (None, [])
  | o :: w => (o, w)
  end.

Definition scripted_create {A : Type} (zero : A) (w : Script) (obj : A)
  : (A * option error) * Script :=
  match next_outcome w with
  | (None, w) => ((obj, None), w)
  | (Some e, w) => ((zero, Some e), w)
  end.

Definition mark_succeeded (j : Job.t) : Job.t :=
  {| Job.ObjectMeta := Job.ObjectMeta j;
     Job.Spec := Job.Spec j;
     Job.Status := JobStatus.mk 1 0 |}.

Definition scripted : Collaborators Script :=
  {| configmap_Create_impl := scripted_create None;
     configmap_Delete_impl := fun w _ _ => next_outcome w;
     rbac_CreateRoles_impl := scripted_create [];
     rbac_CreateRoleBindings_impl := scripted_create [];
     rbac_DeleteRoleBindings_impl := fun w _ => next_outcome w;
     rbac_DeleteRoles_impl := fun w _ => next_outcome w;
     job_Create_impl := scripted_create None;
     job_WaitForJobToFinish_impl := fun w j _ =>
       scripted_create None w (mark_succeeded <$> j);
     job_GetLogs_impl := fun w _ =>
       match next_outcome w with
       | (None, w) => (("checkup finished", None), w)
       | (Some e, w) => ((EmptyString, Some e), w)
       end;
     job_DeleteAndWait_impl := fun w _ _ => next_outcome w;
     results_ReadFromConfigMap_impl := fun w _ _ =>
       match next_outcome w with
       | (o, w) => ((∅, o), w)
       end |}.

(** A fresh environment over the scripted cluster. *)
Definition scripted_env (w : Script) : Env Script := mkEnv w [] [].

End checkup.

(** ** Package [serviceaccount] *)

Module ServiceAccount.
Record t := mk { ObjectMeta : ObjectMeta.t }.
End ServiceAccount.

Module serviceaccount.

(** [corev1client.CoreV1Interface], as far as [Create] uses it:
    [client.ServiceAccounts(namespace).Create(ctx, sa, opts)] is a
    transition of the cluster state that yields the created object and an
    error. *)
Record CoreV1Interface (World : Type) := mkCoreV1Interface {
  ServiceAccounts_Create :
    World -> string -> ServiceAccount.t
    -> (option ServiceAccount.t * option checkup.error) * World
}.

(** A request to the client: the namespace it is made in and the object
    submitted. *)
Record Request := mkRequest {
  req_namespace : string;
  req_object : ServiceAccount.t
}.

(** The line [log.Printf("ServiceAccount '%s/%s' successfully created", ...)]
    writes. *)
Definition created_line (namespace name : string) : string :=
  "ServiceAccount '" +:+ namespace +:+ "/" +:+ name +:+ "' successfully created".

Section Create.

Context {World : Type} (client : CoreV1Interface World).

(** The cluster, the requests made so far (oldest first) and the process
    log. *)
Record Env := mkEnv {
  world : World;
  requests : list Request;
  stdlog : list string
}.

(** [Create].  [sa] is a pointer; it is first dereferenced for the
    namespace of the request.  The context and the empty create options
    passed along are the same in every call. *)
Definition Create (sa : option ServiceAccount.t) (env : Env)
  : checkup.Outcome (option ServiceAccount.t * option checkup.error) * Env :=
  match sa with
  | None => (checkup.Panicked, env)
  | Some sa =>
      let namespace := ObjectMeta.Namespace (ServiceAccount.ObjectMeta sa) in
      let '((createdSa, err), w) :=
        ServiceAccounts_Create World client (world env) namespace sa in
      let env :=
        {| world := w;
           requests := requests env ++ [mkRequest namespace sa];
           stdlog := stdlog env |} in
      match err with
      | Some err => (checkup.Returned (None, Some err), env)
      | None =>
          (checkup.Returned (createdSa, None),
           {| world := world env;
              requests := requests env;
              stdlog :=
                stdlog env ++
                  [created_line namespace
                     (ObjectMeta.Name (ServiceAccount.ObjectMeta sa))] |})
      end
  end.

End Create.

Arguments Env World : clear implicits.
Arguments mkEnv {World} world requests stdlog.

End serviceaccount.

(** ** The parameter validator of the kubevirt-vm-latency checkup

    [config.New] of [checkups/kubevirt-vm-latency/vmlatency/internal/config]
    is exercised by the test file of this repository, but its source is
    not at hand.  The parameter keys are those of the checkup's manifest
    ([spec.param.<key>]); the configuration fields and the error values
    are those the tests name. *)

Module vmlatency.

Definition NetworkNameParamName : string := "network_attachment_definition_name".
Definition NetworkNamespaceParamName : string := "network_attachment_definition_namespace".
Definition SampleDurationSecondsParamName : string := "sample_duration_seconds".
Definition DesiredMaxLatencyMillisecondsParamName : string :=
  "max_desired_latency_milliseconds".
Definition SourceNodeNameParamName : string := "source_node".
Definition TargetNodeNameParamName : string := "target_node".

Record Config := mkConfig {
  SampleDurationSeconds : Z;
  NetworkAttachmentDefinitionName : string;
  NetworkAttachmentDefinitionNamespace : string;
  DesiredMaxLatencyMilliseconds : Z;
  SourceNodeName : string;
  TargetNodeName : string
}.

(** Modelled from the spec: the error values of the validator.  The four
    sentinels of the package and the two of [strconv] are told apart by
    identity; [Wrapped key cause] is the failure reported for a numeric
    key, which wraps the parse failure it stems from. *)
Inductive error :=
| ErrInvalidParams
| ErrInvalidNetworkName
| ErrInvalidNetworkNamespace
| ErrIllegalSourceAndTargetNodesCombination
| ErrSyntax
| ErrRange
| Wrapped (key : string) (cause : error).

(** [errors.Unwrap]. *)
Definition Unwrap (err : error) : option error :=
  match err with
  | Wrapped _ cause => Some cause
  | _ => None
  end.

Fixpoint error_eqb (a b : error) : bool :=
  match a, b with
  | ErrInvalidParams, ErrInvalidParams
  | ErrInvalidNetworkName, ErrInvalidNetworkName
  | ErrInvalidNetworkNamespace, ErrInvalidNetworkNamespace
  | ErrIllegalSourceAndTargetNodesCombination, ErrIllegalSourceAndTargetNodesCombination
  | ErrSyntax, ErrSyntax
  | ErrRange, ErrRange => true
  | Wrapped k x, Wrapped l y => String.eqb k l && error_eqb x y
  | _, _ => false
  end.

(** [errors.Is]: [target] is [err] or a cause along its chain. *)
Fixpoint errors_Is (err target : error) : bool :=
  error_eqb err target
  || match err with
     | Wrapped _ cause => errors_Is cause target
     | _ => false
     end.

Inductive result (A : Type) :=
| Ok (a : A)
| Err (e : error).
Arguments Ok {A} a.
Arguments Err {A} e.

Definition is_digit (a : Ascii.ascii) : bool :=
  let n := Z.of_N (Ascii.N_of_ascii a) in
  (48 <=? n) && (n <=? 57).

Fixpoint digits_value (acc : Z) (s : string) : option Z :=
  match s with
  | EmptyString => Some acc
  | String a s =>
      if is_digit a
      then digits_value (10 * acc + (Z.of_N (Ascii.N_of_ascii a) - 48)) s
      else None
  end.

(** Modelled from the spec: the syntax of a non-negative integer, which
    the absent validator leaves to [strconv].  A string is numeric when it
    is a non-empty run of decimal digits; its value is then the number the
    digits spell. *)
Definition numeric (s : string) : option Z :=
  match s with
  | EmptyString => None
  | _ => digits_value 0 s
  end.

Section Validator.

(** The width of the platform's [int], and the two defaults the package
    declares ([DefaultSampleDurationSeconds],
    [DefaultDesiredMaxLatencyMilliseconds]). *)
Variables (intSize : Z).
Variables (DefaultSampleDurationSeconds DefaultDesiredMaxLatencyMilliseconds : Z).

Definition maxInt : Z := 2 ^ (intSize - 1) - 1.

(** Modelled from the spec: a numeric value must parse as a non-negative
    integer within the platform's representable range; failing that, the
    cause is a syntax failure or a range failure. *)
Definition parseInt (s : string) : result Z :=
  match numeric s with
  | None => Err ErrSyntax
  | Some v => if v <=? maxInt then Ok v else Err ErrRange
  end.

(** Modelled from the spec: a mandatory key that is missing or empty fails
    with its dedicated error. *)
Definition mandatoryParam (params : gmap string string) (key : string) (err : error)
  : result string :=
  match params !! key with
  | Some EmptyString | None => Err err
  | Some v => Ok v
  end.

(** Modelled from the spec: an optional numeric key falls back to its
    default when absent; when present, a parse or range failure is reported
    as an error that wraps it. *)
Definition optionalIntParam (params : gmap string string) (key : string) (default : Z)
  : result Z :=
  match params !! key with
  | None => Ok default
  | Some raw =>
      match parseInt raw with
      | Ok v => Ok v
      | Err cause => Err (Wrapped key cause)
      end
  end.

(** Modelled from the spec: the source and target node names are legal
    when both are absent or both are present and non-empty. *)
Definition nodeNamesParams (params : gmap string string) : result (string * string) :=
  match params !! SourceNodeNameParamName, params !! TargetNodeNameParamName with
  | None, None => Ok (EmptyString, EmptyString)
  | Some EmptyString, Some _ | Some _, Some EmptyString =>
      Err ErrIllegalSourceAndTargetNodesCombination
  | Some source, Some target => Ok (source, target)
  | Some _, None | None, Some _ => Err ErrIllegalSourceAndTargetNodesCombination
  end.

(** Modelled from the spec: [config.New], the validator.  An absent or
    empty mapping is invalid; then the mandatory keys are checked in their
    declared order, then the numeric keys, then the paired keys; the first
    failure is the one reported. *)
Definition New (params : gmap string string) : result Config :=
  if (size params =? 0)%nat then Err ErrInvalidParams else
  match mandatoryParam params NetworkNameParamName ErrInvalidNetworkName with
  | Err e => Err e
  | Ok networkName =>
  match mandatoryParam params NetworkNamespaceParamName ErrInvalidNetworkNamespace with
  | Err e => Err e
  | Ok networkNamespace =>
  match optionalIntParam params SampleDurationSecondsParamName
          DefaultSampleDurationSeconds with
  | Err e => Err e
  | Ok sampleDuration =>
  match optionalIntParam params DesiredMaxLatencyMillisecondsParamName
          DefaultDesiredMaxLatencyMilliseconds with
  | Err e => Err e
  | Ok maxLatency =>
  match nodeNamesParams params with
  | Err e => Err e
  | Ok (source, target) =>
      Ok {| SampleDurationSeconds := sampleDuration;
            NetworkAttachmentDefinitionName := networkName;
            NetworkAttachmentDefinitionNamespace := networkNamespace;
            DesiredMaxLatencyMilliseconds := maxLatency;
            SourceNodeName := source;
            TargetNodeName := target |}
  end end end end end.

End Validator.

(** Which inputs get past the mandatory-key checks, and past the check of
    one numeric key. *)
Definition mandatory_ok (params : gmap string string) : Prop :=
  exists name namespace,
    params !! NetworkNameParamName = Some name /\ name <> EmptyString /\
    params !! NetworkNamespaceParamName = Some namespace /\ namespace <> EmptyString.

Definition numeric_key_ok (intSize : Z) (params : gmap string string) (key : string)
  : Prop :=
  forall raw, params !! key = Some raw -> exists v, parseInt intSize raw = Ok v.

(** The legal states of the node-name pair. *)
Definition node_names_legal (params : gmap string string) : Prop :=
  (params !! SourceNodeNameParamName = None /\
   params !! TargetNodeNameParamName = None)
  \/ (exists source target,
        params !! SourceNodeNameParamName = Some source /\
        params !! TargetNodeNameParamName = Some target /\
        source <> EmptyString /\ target <> EmptyString).

(** The two optional numeric keys. *)
Inductive NumericKey :=
| SampleDuration
| MaxLatency.

Definition key_name (k : NumericKey) : string :=
  match k with
  | SampleDuration => SampleDurationSecondsParamName
  | MaxLatency => DesiredMaxLatencyMillisecondsParamName
  end.

Definition key_field (k : NumericKey) (cfg : Config) : Z :=
  match k with
  | SampleDuration => SampleDurationSeconds cfg
  | MaxLatency => DesiredMaxLatencyMilliseconds cfg
  end.

Definition key_default (k : NumericKey) (defaultSampleDuration defaultMaxLatency : Z) : Z :=
  match k with
  | SampleDuration => defaultSampleDuration
  | MaxLatency => defaultMaxLatency
  end.

(** The numeric key that is not [k]. *)
Definition other_key (k : NumericKey) : NumericKey :=
  match k with
  | SampleDuration => MaxLatency
  | MaxLatency => SampleDuration
  end.

(** The mandatory keys as the tests set them, and inputs built on them. *)
Definition mandatory_only : gmap string string :=
  <[NetworkNameParamName := "blue-net"]>
    (<[NetworkNamespaceParamName := "default"]> ∅).

Definition bad_duration_and_source_only : gmap string string :=
  <[SampleDurationSecondsParamName := "3rr0r"]>
    (<[SourceNodeNameParamName := "worker1"]> mandatory_only).

Definition source_only : gmap string string :=
  <[SourceNodeNameParamName := "worker1"]> mandatory_only.

Definition empty_name_and_source_only : gmap string string :=
  <[NetworkNameParamName := EmptyString]> source_only.

Definition bad_duration_without_name : gmap string string :=
  <[SampleDurationSecondsParamName := "3rr0r"]>
    (<[NetworkNamespaceParamName := "default"]> ∅).

Definition huge_latency : gmap string string :=
  <[DesiredMaxLatencyMillisecondsParamName := "39213801928309128309"]> mandatory_only.

Definition huge_duration_and_bad_latency : gmap string string :=
  <[SampleDurationSecondsParamName := "39213801928309128309"]>
    (<[DesiredMaxLatencyMillisecondsParamName := "3rr0r"]> mandatory_only).

End vmlatency.

(** ** Vocabulary of the statements about the orchestrator *)

Import checkup.

(** The requests that remove an object from the cluster. *)
Definition is_delete (call : Call) : bool :=
  match call with
  | ConfigMapDelete _ _ | RbacDeleteRoleBindings _
  | RbacDeleteRoles _ | JobDeleteAndWait _ _ => true
  | _ => false
  end.

(** The failures among some events, oldest first. *)
Definition failures (evs : list Event) : list error := omap ev_failure evs.

(** The three creations of [Setup], in order. *)
Definition setup_plan (c : Checkup) : list Call :=
  [ ConfigMapCreate (resultConfigMap c);
    RbacCreateRoles (roles c);
    RbacCreateRoleBindings (roleBindings c) ].

(** The three deletions [Teardown] always issues, in order. *)
Definition teardown_tail (c : Checkup) (cm : ConfigMap.t) : list Call :=
  [ RbacDeleteRoleBindings (roleBindings c);
    RbacDeleteRoles (roles c);
    ConfigMapDelete (ObjectMeta.Namespace (ConfigMap.ObjectMeta cm))
      (ObjectMeta.Name (ConfigMap.ObjectMeta cm)) ].

(** The four cleanup steps, in order. *)
Definition four_steps (c : Checkup) (cm : ConfigMap.t) : list Call :=
  JobDeleteAndWait (job c) (teardownTimeout c) :: teardown_tail c cm.

(** The steps [Teardown] issues: the workload is deleted only when a
    workload is held. *)
Definition teardown_plan (c : Checkup) (cm : ConfigMap.t) : list Call :=
  match job c with
  | Some _ => four_steps c cm
  | None => teardown_tail c cm
  end.

(** One message listing some failures, each on a line of its own. *)
Definition listing (errs : list error) : string :=
  foldr (fun err rest => err +:+ newline +:+ rest) EmptyString errs.

(** The aggregated result of a teardown whose failures were [errs]. *)
Definition teardown_report (errs : list error) : option error :=
  match errs with
  | [] => None
  | _ => Some ("teardown: " +:+ listing errs)
  end.

(** A plan, the instance [New] builds from it, and the same instance once
    it holds no workload. *)
Definition example_config : Config.t :=
  {| Config.UID := "0123";
     Config.Image := "quay.io/kiagnose/kubevirt-vm-latency-checkup:main";
     Config.Timeout := 5 * time.Minute;
     Config.ServiceAccountName := "vmlatency-sa";
     Config.EnvVars := [EnvVar.mk "SOURCE_NODE" "worker1"] |}.

Definition example_results_name : string := "vmlatency-results".

Definition example_checkup : Checkup :=
  {| teardownTimeout := 5 * time.Minute;
     resultConfigMap := Some (NewConfigMap "kiagnose" example_results_name);
     roles :=
       [NewConfigMapWriterRole "kiagnose" "vmlatency-results-cm-writer"
          example_results_name];
     roleBindings :=
       [NewRoleBinding "kiagnose" "vmlatency-results-cm-writer"
          (NewServiceAccountSubject "kiagnose" "vmlatency-sa")];
     jobTimeout := 5 * time.Minute;
     job :=
       Some (NewCheckupJob "kiagnose" "vmlatency-checkup" "vmlatency-sa"
               "quay.io/kiagnose/kubevirt-vm-latency-checkup:main" 300
               [ EnvVar.mk "CHECKUP_UID" "0123";
                 EnvVar.mk "RESULT_CONFIGMAP_NAME" example_results_name;
                 EnvVar.mk "RESULT_CONFIGMAP_NAMESPACE" "kiagnose";
                 EnvVar.mk "SOURCE_NODE" "worker1" ]) |}.

Definition example_checkup_without_job : Checkup := set_job None example_checkup.

(** Vocabulary of the statements about states, sequences of calls and the
    aggregated report. *)

(** The character of code 10. *)
Definition newline_char : Ascii.ascii :=
  Ascii.Ascii false true false true false false false false.

(** A message that holds no newline. *)
Fixpoint newline_free (s : string) : bool :=
  match s with
  | EmptyString => true
  | String a s => negb (Ascii.eqb a newline_char) && newline_free s
  end.

Definition is_Setup (op : Op) : bool :=
  match op with
  | OpSetup => true
  | _ => false
  end.

(** The teardown timeout a sequence of calls leaves, from the one held
    before it: the last one set. *)
Definition last_teardown_timeout (ops : list Op) (held : time.Duration) : time.Duration :=
  fold_left
    (fun t op =>
       match op with
       | OpSetTeardownTimeout duration => duration
       | _ => t
       end)
    ops held.

(** The deletions [Teardown] issues before it looks at the result store. *)
Definition teardown_head (c : Checkup) : list Call :=
  match job c with
  | Some _ => [JobDeleteAndWait (job c) (teardownTimeout c)]
  | None => []
  end
  ++ [RbacDeleteRoleBindings (roleBindings c); RbacDeleteRoles (roles c)].

(** The three fixed variables of the workload's environment. *)
Definition fixed_env_vars (uid : string) (cm : ConfigMap.t) : list EnvVar.t :=
  [ EnvVar.mk "CHECKUP_UID" uid;
    EnvVar.mk "RESULT_CONFIGMAP_NAME" (ObjectMeta.Name (ConfigMap.ObjectMeta cm));
    EnvVar.mk "RESULT_CONFIGMAP_NAMESPACE" (ObjectMeta.Namespace (ConfigMap.ObjectMeta cm)) ].

(** The requests of [Teardown]: the deletion of the result store comes
    last, when one is held. *)
Definition teardown_calls (c : Checkup) : list Call :=
  teardown_head c
  ++ match resultConfigMap c with
     | Some cm =>
         [ConfigMapDelete (ObjectMeta.Namespace (ConfigMap.ObjectMeta cm))
            (ObjectMeta.Name (ConfigMap.ObjectMeta cm))]
     | None => []
     end.

(** The answer of the collaborators to a request, with the cluster as the
    request leaves it. *)
Definition answer {World : Type} (K : Collaborators World) (call : Call) (w : World)
  : Response * World :=
  match call with
  | ConfigMapCreate cm =>
      let '(r, w') := configmap_Create_impl World K w cm in (RespConfigMap r.1 r.2, w')
  | ConfigMapDelete namespace name =>
      let '(r, w') := configmap_Delete_impl World K w namespace name in (RespDone r, w')
  | RbacCreateRoles rs =>
      let '(r, w') := rbac_CreateRoles_impl World K w rs in (RespRoles r.1 r.2, w')
  | RbacCreateRoleBindings rbs =>
      let '(r, w') := rbac_CreateRoleBindings_impl World K w rbs in
      (RespRoleBindings r.1 r.2, w')
  | RbacDeleteRoleBindings rbs =>
      let '(r, w') := rbac_DeleteRoleBindings_impl World K w rbs in (RespDone r, w')
  | RbacDeleteRoles rs =>
      let '(r, w') := rbac_DeleteRoles_impl World K w rs in (RespDone r, w')
  | JobCreate j =>
      let '(r, w') := job_Create_impl World K w j in (RespJob r.1 r.2, w')
  | JobWaitForJobToFinish j timeout =>
      let '(r, w') := job_WaitForJobToFinish_impl World K w j timeout in
      (RespJob r.1 r.2, w')
  | JobGetLogs j =>
      let '(r, w') := job_GetLogs_impl World K w j in (RespLogs r.1 r.2, w')
  | JobDeleteAndWait j timeout =>
      let '(r, w') := job_DeleteAndWait_impl World K w j timeout in (RespDone r, w')
  | ResultsReadFromConfigMap namespace name =>
      let '(r, w') := results_ReadFromConfigMap_impl World K w namespace name in
      (RespResults r.1 r.2, w')
  end.

(** The events of some requests made one after the other, whatever their
    outcomes, and the cluster they leave. *)
Fixpoint answers {World : Type} (K : Collaborators World) (calls : list Call) (w : World)
  : list Event * World :=
  match calls with
  | [] => ([], w)
  | call :: calls =>
      let '(r, w1) := answer K call w in
      let '(evs, w2) := answers K calls w1 in
      (mkEvent call r :: evs, w2)
  end.

(** The same when the first failure ends the sequence. *)
Fixpoint answers_until_failure {World : Type} (K : Collaborators World)
  (calls : list Call) (w : World) : list Event * World :=
  match calls with
  | [] => ([], w)
  | call :: calls =>
      let '(r, w1) := answer K call w in
      match resp_err r with
      | Some _ => ([mkEvent call r], w1)
      | None =>
          let '(evs, w2) := answers_until_failure K calls w1 in
          (mkEvent call r :: evs, w2)
      end
  end.

(** The workload the instance above holds, and the plan above with another
    timeout. *)
Definition example_job : Job.t :=
  NewCheckupJob "kiagnose" "vmlatency-checkup" "vmlatency-sa"
    "quay.io/kiagnose/kubevirt-vm-latency-checkup:main" 300
    [ EnvVar.mk "CHECKUP_UID" "0123";
      EnvVar.mk "RESULT_CONFIGMAP_NAME" example_results_name;
      EnvVar.mk "RESULT_CONFIGMAP_NAMESPACE" "kiagnose";
      EnvVar.mk "SOURCE_NODE" "worker1" ].

Definition example_config_with (timeout : time.Duration) : Config.t :=
  {| Config.UID := "0123";
     Config.Image := "quay.io/kiagnose/kubevirt-vm-latency-checkup:main";
     Config.Timeout := timeout;
     Config.ServiceAccountName := "vmlatency-sa";
     Config.EnvVars := [EnvVar.mk "SOURCE_NODE" "worker1"] |}.

(** * Properties *)

(** ** The resource factory *)

Example New_example :
  New "kiagnose" "vmlatency" (Some example_config) = Returned example_checkup.
Proof. reflexivity. Qed.

(** [New] panics on a nil plan and returns an instance otherwise. *)
Lemma New_returns (targetNsName name : string) (checkupConfig : Config.t) :
  exists c, New targetNsName name (Some checkupConfig) = Returned c.
Proof. unfold New. eexists. reflexivity. Qed.

(** C9: the three object names are functions of the run name alone: the
    result store is [r-results], the access role [r-results-cm-writer],
    the workload [r-checkup]; these are the names the objects held by an
    instance built by [New] carry. *)
Theorem names_derived_from_run_name (r : string) :
  NameResultsConfigMap r = r +:+ "-results" /\
  NameResultsConfigMapWriterRole r = r +:+ "-results-cm-writer" /\
  NameJob r = r +:+ "-checkup" /\
  forall targetNsName checkupConfig,
    exists c cm role j,
      New targetNsName r (Some checkupConfig) = Returned c /\
      resultConfigMap c = Some cm /\ roles c = [role] /\ job c = Some j /\
      ObjectMeta.Name (ConfigMap.ObjectMeta cm) = r +:+ "-results" /\
      ObjectMeta.Name (Role.ObjectMeta role) = r +:+ "-results-cm-writer" /\
      ObjectMeta.Name (Job.ObjectMeta j) = r +:+ "-checkup".
Proof.
  repeat split.
  intros targetNsName checkupConfig. unfold New.
  do 4 eexists. repeat split.
Qed.

(** C8: the role built for a result store has a single rule; the rule
    grants the verbs get, update and patch and no other, on config maps,
    and names the result store as its only resource name, so it is not a
    grant over every config map of the namespace.  In the instance [New]
    builds, that name is the name of the result store the instance holds,
    in the same namespace. *)
Theorem writer_role_least_privilege (namespaceName name configMapName : string) :
  (exists rule,
     Role.Rules (NewConfigMapWriterRole namespaceName name configMapName) = [rule] /\
     rule = newConfigMapWriterPolicyRule configMapName /\
     PolicyRule.Verbs rule = ["get"; "update"; "patch"] /\
     PolicyRule.APIGroups rule = [EmptyString] /\
     PolicyRule.Resources rule = ["configmaps"] /\
     PolicyRule.ResourceNames rule = [configMapName] /\
     PolicyRule.ResourceNames rule <> []) /\
  (forall checkupConfig,
     exists c cm role rule,
       New namespaceName name (Some checkupConfig) = Returned c /\
       resultConfigMap c = Some cm /\ roles c = [role] /\
       Role.Rules role = [rule] /\
       PolicyRule.Verbs rule = ["get"; "update"; "patch"] /\
       PolicyRule.ResourceNames rule = [ObjectMeta.Name (ConfigMap.ObjectMeta cm)] /\
       ObjectMeta.Namespace (Role.ObjectMeta role)
         = ObjectMeta.Namespace (ConfigMap.ObjectMeta cm)).
Proof.
  split.
  - eexists. split_and!; try reflexivity. discriminate.
  - intros checkupConfig. unfold New. do 4 eexists. split_and!; reflexivity.
Qed.

(** *** The conversion of the timeout to whole seconds

    [int64(Timeout.Seconds())] goes through binary64: the seconds and the
    nanoseconds are converted, the nanoseconds divided by [1e9], the two
    added, each step rounding to nearest, and the sum truncated.  The
    lemmas below follow the rounding of [SpecFloat] through these steps.
    A whole number of seconds survives exactly; for a duration below
    [2^23] seconds the result is the number of whole seconds. *)

Lemma digits2_pos_size (m : positive) : digits2_pos m = Pos.size m.
Proof. induction m; simpl; congruence. Qed.

(** [Zdigits2 m] is the number of binary digits of [m]. *)
Lemma Zdigits2_bounds (m : positive) :
  2 ^ (Zpos (digits2_pos m) - 1) <= Zpos m < 2 ^ Zpos (digits2_pos m).
Proof.
  rewrite digits2_pos_size. split.
  - pose proof (Pos.size_le m) as H. apply Pos2Z.pos_le_pos in H.
    rewrite Pos2Z.inj_pow in H. change (Zpos m~0) with (2 * Zpos m) in H.
    replace (Zpos (Pos.size m)) with (Zpos (Pos.size m) - 1 + 1) in H by lia.
    rewrite Z.pow_add_r in H by lia. lia.
  - pose proof (Pos.size_gt m) as H. apply Pos2Z.pos_lt_pos in H.
    rewrite Pos2Z.inj_pow in H. exact H.
Qed.

Lemma Zdigits2_unique (m : positive) (d : Z) :
  2 ^ (d - 1) <= Zpos m < 2 ^ d -> Zpos (digits2_pos m) = d.
Proof.
  intros [Hl Hu]. pose proof (Zdigits2_bounds m) as [Hl' Hu'].
  assert (0 < d).
  { destruct (Z_lt_le_dec 0 d); [assumption|].
    assert (2 ^ d <= 2 ^ 0) by (apply Z.pow_le_mono_r; lia). simpl in *. lia. }
  destruct (Z.lt_trichotomy (Zpos (digits2_pos m)) d) as [Hlt|[Heq|Hgt]]; [|exact Heq|].
  - assert (2 ^ Zpos (digits2_pos m) <= 2 ^ (d - 1)) by (apply Z.pow_le_mono_r; lia). lia.
  - assert (2 ^ d <= 2 ^ (Zpos (digits2_pos m) - 1)) by (apply Z.pow_le_mono_r; lia). lia.
Qed.

(** Shifting right: the mantissa of the record is halved at each step. *)
Lemma shr_1_m (mrs : shr_record) :
  0 <= shr_m mrs -> shr_m (shr_1 mrs) = shr_m mrs / 2.
Proof.
  destruct mrs as [m r s]. simpl. intros Hm.
  destruct m as [|[p|p|]|p]; simpl; try reflexivity; try lia.
  - rewrite Pos2Z.inj_xI. apply Z.div_unique with 1; lia.
  - rewrite Pos2Z.inj_xO. apply Z.div_unique with 0; lia.
Qed.

Lemma iter_pos_shr_m (p : positive) (mrs : shr_record) :
  0 <= shr_m mrs ->
  shr_m (SpecFloat.iter_pos shr_1 p mrs) = shr_m mrs / 2 ^ Zpos p /\ 0 <= shr_m (SpecFloat.iter_pos shr_1 p mrs).
Proof.
  revert mrs. induction p as [p IH|p IH|]; intros mrs Hm; cbn [SpecFloat.iter_pos].
  - pose proof (shr_1_m mrs Hm) as H1.
    assert (H1' : 0 <= shr_m (shr_1 mrs)) by (rewrite H1; apply Z.div_pos; lia).
    destruct (IH _ H1') as [H2 H2'].
    destruct (IH _ H2') as [H3 H3'].
    split; [|exact H3'].
    rewrite H3, H2, H1. rewrite !Z.div_div by lia.
    f_equal. change 2 with (2 ^ 1) at 1. rewrite <- !Z.pow_add_r by lia.
    f_equal. lia.
  - destruct (IH _ Hm) as [H2 H2'].
    destruct (IH _ H2') as [H3 H3'].
    split; [|exact H3'].
    rewrite H3, H2. rewrite !Z.div_div by lia.
    f_equal. rewrite <- !Z.pow_add_r by lia.
    f_equal. lia.
  - pose proof (shr_1_m mrs Hm) as H1. split.
    + rewrite H1. reflexivity.
    + rewrite H1. apply Z.div_pos; lia.
Qed.

Lemma shr_m_of_loc (m : Z) (l : location) : shr_m (shr_record_of_loc m l) = m.
Proof. destruct l as [|[]]; reflexivity. Qed.

Lemma round_nearest_even_cases (m : Z) (l : location) :
  round_nearest_even m l = m \/ round_nearest_even m l = m + 1.
Proof. destruct l as [|[]]; simpl; try (left; reflexivity); try (right; reflexivity).
  destruct (Z.even m); [left|right]; reflexivity. Qed.

(** The first step of rounding: the mantissa is cut down to the target
    exponent. *)
Lemma shr_fexp_m (m : positive) (e t : Z) (l : location) :
  fexp 53 1024 (Zpos (digits2_pos m) + e) = t -> e <= t ->
  exists mrs,
    shr_fexp 53 1024 (Zpos m) e l = (mrs, t) /\
    shr_m mrs = Zpos m / 2 ^ (t - e).
Proof.
  intros Ht Hle. unfold shr_fexp, shr. simpl Zdigits2. rewrite Ht.
  destruct (t - e) as [|p|p] eqn:Hk; try lia.
  - eexists. split; [f_equal; lia|]. rewrite shr_m_of_loc, Z.div_1_r. reflexivity.
  - eexists. split; [f_equal; lia|].
    destruct (iter_pos_shr_m p (shr_record_of_loc (Zpos m) l)) as [H _].
    { rewrite shr_m_of_loc. lia. }
    rewrite H, shr_m_of_loc. reflexivity.
Qed.

(** Rounding a mantissa of at least 53 digits: it is cut to 53 digits and
    rounded down or up; rounding up to [2^53] moves to the next exponent. *)
Lemma binary_round_aux_bounds (sx : bool) (mx : positive) (ex : Z) (lx : location) :
  53 <= Zpos (digits2_pos mx) ->
  - 1074 <= Zpos (digits2_pos mx) + ex - 53 <= 970 ->
  exists m' e' m2,
    binary_round_aux 53 1024 sx (Zpos mx) ex lx = S754_finite sx m' e' /\
    (m2 = Zpos mx / 2 ^ (Zpos (digits2_pos mx) - 53) \/
     m2 = Zpos mx / 2 ^ (Zpos (digits2_pos mx) - 53) + 1) /\
    ((e' = Zpos (digits2_pos mx) + ex - 53 /\ Zpos m' = m2) \/
     (e' = Zpos (digits2_pos mx) + ex - 52 /\ Zpos m' = 2 ^ 52 /\ m2 = 2 ^ 53)).
Proof.
  intros Hd Hrange.
  set (d := Zpos (digits2_pos mx)) in *. set (t := d + ex - 53).
  pose proof (Zdigits2_bounds mx) as [Hlo Hhi]. fold d in Hlo, Hhi.
  assert (Hfexp : fexp 53 1024 (d + ex) = t) by (unfold fexp, emin, t; lia).
  destruct (shr_fexp_m mx ex t lx Hfexp) as (mrs1 & Hshr1 & Hm1); [unfold t; lia|].
  unfold binary_round_aux. rewrite Hshr1.
  replace (t - ex) with (d - 53) in Hm1 by (unfold t; lia).
  set (m1 := Zpos mx / 2 ^ (d - 53)) in *.
  assert (Hm1b : 2 ^ 52 <= m1 < 2 ^ 53).
  { unfold m1. split.
    - apply Z.div_le_lower_bound; [apply Z.pow_pos_nonneg; lia|].
      rewrite <- Z.pow_add_r by lia. replace (d - 53 + 52) with (d - 1) by lia. exact Hlo.
    - apply Z.div_lt_upper_bound; [apply Z.pow_pos_nonneg; lia|].
      rewrite <- Z.pow_add_r by lia. replace (d - 53 + 53) with d by lia. exact Hhi. }
  rewrite Hm1.
  destruct (round_nearest_even_cases m1 (loc_of_shr_record mrs1)) as [Hr|Hr]; rewrite Hr.
  - (* rounded down *)
    destruct m1 as [|pm1|pm1] eqn:Em1; try lia.
    assert (Hd1 : Zpos (digits2_pos pm1) = 53) by (apply Zdigits2_unique; simpl; lia).
    destruct (shr_fexp_m pm1 t t loc_Exact) as (mrs2 & Hshr2 & Hm2).
    { rewrite Hd1. unfold fexp, emin, t. lia. } { lia. }
    rewrite Hshr2, Hm2, Z.sub_diag, Z.div_1_r.
    replace (t <=? 1024 - 53) with true by (symmetry; apply Z.leb_le; unfold t; lia).
    exists pm1, t, (Zpos pm1).
    split; [reflexivity|]. split; [left; reflexivity|]. left. split; reflexivity.
  - (* rounded up *)
    destruct (m1 + 1) as [|pm2|pm2] eqn:Em2; try lia.
    destruct (Z_lt_le_dec (Zpos pm2) (2 ^ 53)) as [Hlt|Hge].
    + assert (Hd2 : Zpos (digits2_pos pm2) = 53) by (apply Zdigits2_unique; simpl; lia).
      destruct (shr_fexp_m pm2 t t loc_Exact) as (mrs2 & Hshr2 & Hm2).
      { rewrite Hd2. unfold fexp, emin, t. lia. } { lia. }
      rewrite Hshr2, Hm2, Z.sub_diag, Z.div_1_r.
      replace (t <=? 1024 - 53) with true by (symmetry; apply Z.leb_le; unfold t; lia).
      exists pm2, t, (Zpos pm2).
      split; [reflexivity|]. split; [right; lia|]. left. split; reflexivity.
    + assert (Hpm2 : Zpos pm2 = 2 ^ 53) by lia.
      assert (Hd2 : Zpos (digits2_pos pm2) = 54)
        by (apply Zdigits2_unique; rewrite Hpm2; simpl; lia).
      destruct (shr_fexp_m pm2 t (t + 1) loc_Exact) as (mrs2 & Hshr2 & Hm2).
      { rewrite Hd2. unfold fexp, emin, t. lia. } { lia. }
      rewrite Hshr2, Hm2.
      replace (t + 1 - t) with 1 by lia. rewrite Hpm2.
      change (2 ^ 53 / 2 ^ 1) with (Zpos (2 ^ 52)).
      replace (t + 1 <=? 1024 - 53) with true by (symmetry; apply Z.leb_le; unfold t; lia).
      exists (2 ^ 52)%positive, (t + 1), (2 ^ 53).
      split; [reflexivity|]. split; [right; lia|]. right.
      split; [unfold t; lia|]. split; reflexivity.
Qed.

Lemma digits2_pos_iter_xO (m d : positive) :
  digits2_pos (Pos.iter xO m d) = (digits2_pos m + d)%positive.
Proof.
  rewrite (Pos.iter_swap_gen _ _ digits2_pos xO Pos.succ) by reflexivity.
  induction d using Pos.peano_ind.
  - simpl. lia.
  - rewrite Pos.iter_succ, IHd. lia.
Qed.

Lemma Zpos_iter_xO (m d : positive) :
  Zpos (Pos.iter xO m d) = Zpos m * 2 ^ Zpos d.
Proof.
  rewrite (Pos.iter_swap_gen _ _ Zpos xO (Z.mul 2)) by reflexivity.
  change (Pos.iter (Z.mul 2) (Zpos m) d) with (Z.shiftl (Zpos m) (Zpos d)).
  apply Z.shiftl_mul_pow2. lia.
Qed.

(** An integer below [2^53] is a binary64 number: its digits move to the
    top of the mantissa. *)
Lemma binary_round_exact (s : bool) (m : positive) :
  Zpos m < 2 ^ 53 ->
  exists m',
    binary_round 53 1024 s m 0 = S754_finite s m' (Zpos (digits2_pos m) - 53) /\
    Zpos m' = Zpos m * 2 ^ (53 - Zpos (digits2_pos m)) /\
    Zpos (digits2_pos m') = 53.
Proof.
  intros Hm. pose proof (Zdigits2_bounds m) as [Hlo Hhi].
  set (d := Zpos (digits2_pos m)) in *.
  assert (Hd : d <= 53).
  { destruct (Z_le_gt_dec d 53); [assumption|].
    assert (2 ^ 53 <= 2 ^ (d - 1)) by (apply Z.pow_le_mono_r; lia). lia. }
  assert (Hmz : exists mz,
             shl_align m 0 (fexp 53 1024 (d + 0)) = (mz, d - 53) /\
             Zpos mz = Zpos m * 2 ^ (53 - d) /\ Zpos (digits2_pos mz) = 53).
  { unfold shl_align. replace (fexp 53 1024 (d + 0)) with (d - 53)
      by (unfold fexp, emin; lia).
    destruct (d - 53 - 0) as [|p|p] eqn:Hsub; try lia.
    - exists m. replace (d - 53) with 0 by lia. replace (53 - d) with 0 by lia.
      split_and!; [reflexivity|lia|fold d; lia].
    - exists (Pos.iter xO m p). split_and!.
      + reflexivity.
      + rewrite Zpos_iter_xO. f_equal. f_equal. lia.
      + rewrite digits2_pos_iter_xO. fold d. lia. }
  destruct Hmz as (mz & Halign & Hval & Hdz).
  unfold binary_round. fold d. rewrite Halign.
  unfold binary_round_aux.
  destruct (shr_fexp_m mz (d - 53) (d - 53) loc_Exact) as (mrs1 & Hshr1 & Hm1).
  { rewrite Hdz. unfold fexp, emin. lia. } { lia. }
  rewrite Hshr1.
  assert (Hmrs1 : mrs1 = shr_record_of_loc (Zpos mz) loc_Exact).
  { revert Hshr1. unfold shr_fexp, shr. simpl Zdigits2. rewrite Hdz.
    replace (fexp 53 1024 (53 + (d - 53)) - (d - 53)) with 0 by (unfold fexp, emin; lia).
    intros H. injection H as <-. reflexivity. }
  rewrite Hmrs1. cbn [shr_record_of_loc shr_m loc_of_shr_record round_nearest_even].
  destruct (shr_fexp_m mz (d - 53) (d - 53) loc_Exact) as (mrs2 & Hshr2 & Hm2).
  { rewrite Hdz. unfold fexp, emin. lia. } { lia. }
  rewrite Hshr2, Hm2, Z.sub_diag, Z.div_1_r.
  replace (d - 53 <=? 1024 - 53) with true by (symmetry; apply Z.leb_le; lia).
  exists mz. split_and!; [reflexivity|exact Hval|exact Hdz].
Qed.

(** Such an integer comes back unchanged from the round trip. *)
Lemma int64_of_float64_of_int (n : Z) :
  - 2 ^ 53 < n < 2 ^ 53 ->
  time.int64_of_float64 (time.float64_of_int n) = n /\
  SFadd 53 1024 (time.float64_of_int n) (S754_zero false) = time.float64_of_int n.
Proof.
  intros Hn. unfold time.float64_of_int, binary_normalize.
  assert (Hback : forall (s : bool) (m m' : positive),
             Zpos m < 2 ^ 53 ->
             Zpos m' = Zpos m * 2 ^ (53 - Zpos (digits2_pos m)) ->
             time.int64_of_float64 (S754_finite s m' (Zpos (digits2_pos m) - 53))
             = cond_Zopp s (Zpos m)).
  { intros s m m' Hm Hm'. unfold time.int64_of_float64. f_equal.
    pose proof (Zdigits2_bounds m) as [Hlo _].
    destruct (Zpos (digits2_pos m) - 53) as [|p|p] eqn:He.
    - rewrite Hm', Z.shiftl_0_r. replace (53 - Zpos (digits2_pos m)) with 0 by lia. lia.
    - exfalso.
      assert (2 ^ 53 <= 2 ^ (Zpos (digits2_pos m) - 1)) by (apply Z.pow_le_mono_r; lia).
      lia.
    - rewrite Z.shiftr_div_pow2 by lia. rewrite Hm'.
      replace (53 - Zpos (digits2_pos m)) with (Zpos p) by lia.
      apply Z.div_mul. apply Z.pow_nonzero; lia. }
  destruct n as [|m|m].
  - split; reflexivity.
  - destruct (binary_round_exact false m) as (m' & -> & Hm' & _); [lia|].
    split; [apply Hback; [lia|exact Hm'] | reflexivity].
  - destruct (binary_round_exact true m) as (m' & -> & Hm' & _); [lia|].
    split; [apply Hback; [lia|exact Hm'] | reflexivity].
Qed.

(** A whole number of seconds survives the conversion exactly. *)
Lemma Seconds_whole (n : Z) :
  - 2 ^ 53 < n < 2 ^ 53 ->
  time.int64_of_float64 (time.Seconds (n * time.Second)) = n.
Proof.
  intros Hn. unfold time.Seconds.
  rewrite Z.quot_mul, Z.rem_mul by discriminate.
  change (SFdiv 53 1024 (time.float64_of_int 0) (time.float64_of_int 1000000000))
    with (S754_zero false).
  destruct (int64_of_float64_of_int n Hn) as [Hi ->]. exact Hi.
Qed.

(** The fraction of a second: the quotient of the nanoseconds by [1e9],
    rounded, stays below [1 - 2^-30]. *)
Lemma fraction_below_one (nsec : Z) :
  0 < nsec < 1000000000 ->
  exists mq eq,
    SFdiv 53 1024 (time.float64_of_int nsec) (time.float64_of_int 1000000000)
      = S754_finite false mq eq /\
    - 84 <= eq <= - 53 /\
    Zpos mq + 2 ^ (- 30 - eq) < 2 ^ (- eq).
Proof.
  intros Hn. destruct nsec as [|pn|pn]; try lia.
  change (time.float64_of_int 1000000000)
    with (S754_finite false 8388608000000000 (-23)).
  unfold time.float64_of_int, binary_normalize.
  destruct (binary_round_exact false pn) as (m1 & -> & Hm1 & Hd1); [lia|].
  pose proof (Zdigits2_bounds pn) as [Hlo Hhi].
  set (dn := Zpos (digits2_pos pn)) in *.
  assert (Hdn : 1 <= dn <= 30).
  { split; [unfold dn; lia|].
    destruct (Z_le_gt_dec dn 30); [assumption|].
    assert (2 ^ 30 <= 2 ^ (dn - 1)) by (apply Z.pow_le_mono_r; lia). lia. }
  unfold SFdiv, SFdiv_core_binary.
  assert (He : IntDef.Z.min
                 (fexp 53 1024
                    (Zdigits2 (Z.pos m1) + (dn - 53) -
                     (Zdigits2 8388608000000000 + -23)))
                 (dn - 53 - -23) = dn - 83).
  { simpl Zdigits2. rewrite Hd1. change IntDef.Z.min with Z.min.
    unfold fexp, emin. lia. }
  rewrite He. replace (dn - 53 - -23 - (dn - 83)) with 53 by lia.
  change (IntDef.Z.shiftl (Z.pos m1) 53) with (Z.shiftl (Z.pos m1) 53).
  rewrite Z.shiftl_mul_pow2 by lia.
  pose proof (Z.div_eucl_eq (Zpos m1 * 2 ^ 53) 8388608000000000 ltac:(lia)) as Hdiv.
  pose proof (Z.mod_pos_bound (Zpos m1 * 2 ^ 53) 8388608000000000 ltac:(lia)) as Hmod.
  unfold Z.modulo in Hmod.
  change IntDef.Z.div_eucl with Z.div_eucl.
  destruct (Z.div_eucl (Zpos m1 * 2 ^ 53) 8388608000000000) as [q0 r0].
  pose proof (Zdigits2_bounds m1) as [Hlo1 Hhi1]. rewrite Hd1 in Hlo1, Hhi1.
  change (2 ^ (53 - 1)) with 4503599627370496 in Hlo1.
  change (2 ^ 53) with 9007199254740992 in Hhi1, Hdiv.
  assert (Hq0 : 4503599627370496 <= q0 < 18014398509481984) by lia.
  destruct q0 as [|pq|pq]; try lia.
  (* the quotient has 53 or 54 digits *)
  set (dq := Zpos (digits2_pos pq)).
  assert (Hdq : (dq = 53 /\ Zpos pq < 9007199254740992) \/
                (dq = 54 /\ 9007199254740992 <= Zpos pq)).
  { destruct (Z_lt_le_dec (Zpos pq) 9007199254740992).
    - left. split; [|assumption]. apply Zdigits2_unique. simpl. lia.
    - right. split; [|assumption]. apply Zdigits2_unique. simpl. lia. }
  destruct (binary_round_aux_bounds false pq (dn - 83)
              (new_location 8388608000000000 r0)) as (mq & eq & m2 & Hround & Hm2 & Hcase).
  { fold dq. lia. } { fold dq. lia. }
  fold dq in Hm2, Hcase.
  exists mq, eq. split; [exact Hround|].
  (* everything in units of [u = 2 ^ (105 - dq - dn)] *)
  set (u := 2 ^ (105 - dq - dn)).
  assert (Hu : 2 ^ 21 <= u) by (apply Z.pow_le_mono_r; lia).
  change (2 ^ 21) with 2097152 in Hu.
  assert (Hn83 : Zpos pq * 1000000000 <= 999999999 * (2 ^ (dq - 53) * (2147483648 * u))).
  { assert (Hp : Zpos m1 * 9007199254740992
                 = Zpos pn * (2 ^ (dq - 53) * (2147483648 * u)) * 8388608).
    { rewrite Hm1. unfold u.
      change 9007199254740992 with (2 ^ 53). change 2147483648 with (2 ^ 31).
      change 8388608 with (2 ^ 23).
      rewrite <- !Z.mul_assoc. f_equal.
      rewrite <- !Z.pow_add_r by lia. f_equal. lia. }
    nia. }
  assert (Hm2u : m2 + 2 * u < 2147483648 * u).
  { destruct Hdq as [[-> Hpq]|[-> Hpq]].
    - change (2 ^ (53 - 53)) with 1 in *. rewrite Z.div_1_r in Hm2. lia.
    - change (2 ^ (54 - 53)) with 2 in *.
      pose proof (Z.mul_div_le (Zpos pq) 2 ltac:(lia)). lia. }
  assert (Hm2lo : 4503599627370496 <= m2).
  { destruct Hdq as [[-> Hpq]|[-> Hpq]].
    - change (2 ^ (53 - 53)) with 1 in *. rewrite Z.div_1_r in Hm2. lia.
    - change (2 ^ (54 - 53)) with 2 in *.
      assert (4503599627370496 <= Zpos pq / 2) by (apply Z.div_le_lower_bound; lia). lia. }
  assert (Hsum : dq + dn <= 83).
  { destruct (Z_le_gt_dec (dq + dn) 83); [assumption|exfalso].
    assert (u <= 2 ^ 21) by (apply Z.pow_le_mono_r; lia).
    change (2 ^ 21) with 2097152 in *. lia. }
  destruct Hcase as [[-> Hmq]|(-> & Hmq & Hm253)].
  - split; [lia|]. rewrite Hmq.
    replace (- 30 - (dq + (dn - 83) - 53)) with (1 + (105 - dq - dn)) by lia.
    replace (- (dq + (dn - 83) - 53)) with (31 + (105 - dq - dn)) by lia.
    rewrite !Z.pow_add_r by lia. fold u. lia.
  - assert (dq + dn <= 82).
    { destruct (Z_le_gt_dec (dq + dn) 82); [assumption|exfalso].
      assert (u <= 2 ^ 22) by (apply Z.pow_le_mono_r; lia).
      change (2 ^ 22) with 4194304 in *. change (2 ^ 53) with 9007199254740992 in *. lia. }
    split; [lia|]. rewrite Hmq.
    replace (- 30 - (dq + (dn - 83) - 52)) with (105 - dq - dn) by lia.
    replace (- (dq + (dn - 83) - 52)) with (30 + (105 - dq - dn)) by lia.
    rewrite !Z.pow_add_r by lia. fold u.
    change (2 ^ 53) with 9007199254740992 in *. change (2 ^ 52) with 4503599627370496.
    change (2 ^ 30) with 1073741824. lia.
Qed.

(** Adding such a fraction to a whole number of seconds below [2^23]
    rounds to a number that still truncates to those seconds. *)
Lemma add_fraction (sec : Z) (mq : positive) (eq : Z) :
  0 <= sec < 2 ^ 23 ->
  - 84 <= eq <= - 53 ->
  Zpos mq + 2 ^ (- 30 - eq) < 2 ^ (- eq) ->
  time.int64_of_float64
    (SFadd 53 1024 (time.float64_of_int sec) (S754_finite false mq eq)) = sec.
Proof.
  intros Hsec Heq Hq.
  assert (Hpow : 0 < 2 ^ (- 30 - eq)) by (apply Z.pow_pos_nonneg; lia).
  unfold time.float64_of_int, binary_normalize.
  destruct sec as [|ps|ps]; try lia.
  - (* no whole second: the sum is the fraction *)
    cbn [SFadd time.int64_of_float64 cond_Zopp].
    destruct eq as [|pe|pe]; try lia.
    rewrite Z.shiftr_div_pow2 by lia. apply Z.div_small. 
    change (- Zneg pe) with (Zpos pe) in Hq. lia.
  - destruct (binary_round_exact false ps) as (mx & -> & Hmx & Hdx).
    { change (2 ^ 23) with 8388608 in Hsec. change (2 ^ 53) with 9007199254740992. lia. }
    pose proof (Zdigits2_bounds ps) as [Hlo Hhi].
    set (ds := Zpos (digits2_pos ps)) in *.
    assert (Hds : 1 <= ds <= 23).
    { split; [unfold ds; lia|].
      destruct (Z_le_gt_dec ds 23); [assumption|].
      assert (2 ^ 23 <= 2 ^ (ds - 1)) by (apply Z.pow_le_mono_r; lia). lia. }
    set (a := - eq) in *.
    assert (Ha : eq = - a) by (unfold a; lia).
    unfold SFadd. change IntDef.Z.min with Z.min.
    replace (Z.min (ds - 53) eq) with eq by lia.
    assert (Halign1 : exists px, shl_align mx (ds - 53) eq = (px, eq) /\
                                 Zpos px = Zpos ps * 2 ^ a).
    { unfold shl_align. destruct (eq - (ds - 53)) as [|d|d] eqn:Hsub; try lia.
      exists (Pos.iter xO mx d). split; [reflexivity|].
      rewrite Zpos_iter_xO, Hmx, <- Z.mul_assoc, <- Z.pow_add_r by lia.
      f_equal. f_equal. lia. }
    destruct Halign1 as (px & -> & Hpx).
    assert (Halign2 : shl_align mq eq eq = (mq, eq)).
    { unfold shl_align. rewrite Z.sub_diag. reflexivity. }
    rewrite Halign2. cbn [fst cond_Zopp].
    change (Zpos px + Zpos mq) with (Zpos (px + mq)).
    cbn [binary_normalize]. set (pM := (px + mq)%positive).
    assert (HM : Zpos pM = Zpos ps * 2 ^ a + Zpos mq) by (unfold pM; lia).
    (* the sum, in units of [2 ^ a] *)
    assert (H2a : 0 < 2 ^ a) by (apply Z.pow_pos_nonneg; lia).
    assert (HMlo : 2 ^ a <= Zpos pM) by nia.
    assert (HMhi : Zpos pM < 2 ^ (23 + a)).
    { rewrite Z.pow_add_r by lia. change (2 ^ 23) with 8388608 in *. nia. }
    pose proof (Zdigits2_bounds pM) as [HdMlo HdMhi].
    set (dM := Zpos (digits2_pos pM)) in *.
    assert (HdM : a + 1 <= dM <= a + 23).
    { split.
      - destruct (Z_le_gt_dec (a + 1) dM); [assumption|exfalso].
        assert (2 ^ dM <= 2 ^ a) by (apply Z.pow_le_mono_r; lia). lia.
      - destruct (Z_le_gt_dec dM (a + 23)); [assumption|exfalso].
        assert (2 ^ (23 + a) <= 2 ^ (dM - 1)) by (apply Z.pow_le_mono_r; lia). lia. }
    unfold binary_round. fold dM.
    assert (Halign3 : shl_align pM eq (fexp 53 1024 (dM + eq)) = (pM, eq)).
    { unfold shl_align, fexp, emin.
      destruct (Z.max (dM + eq - 53) (3 - 1024 - 53) - eq) as [|d|d] eqn:Hsub;
        try reflexivity; lia. }
    rewrite Halign3.
    destruct (binary_round_aux_bounds false pM eq loc_Exact)
      as (m' & e' & m2 & -> & Hm2 & Hcase).
    { fold dM. lia. } { fold dM. lia. }
    fold dM in Hm2, Hcase.
    (* in units: [2 ^ a = U * K], [U = 2 * U2], [U = 2 ^ 30 * V] *)
    set (K := 2 ^ (dM - 53)) in *.
    set (U2 := 2 ^ (a + 52 - dM)).
    set (V := 2 ^ (a + 23 - dM)).
    assert (HK : 0 < K) by (apply Z.pow_pos_nonneg; lia).
    assert (HV : 0 < V) by (apply Z.pow_pos_nonneg; lia).
    assert (HU2 : U2 = 536870912 * V).
    { unfold U2, V. change 536870912 with (2 ^ 29).
      rewrite <- Z.pow_add_r by lia. f_equal. lia. }
    assert (H2aU : 2 ^ a = 2 * U2 * K).
    { unfold U2, K. change 2 with (2 ^ 1) at 2.
      rewrite <- !Z.pow_add_r by lia. f_equal. lia. }
    assert (H2aV : 2 ^ (- 30 - eq) = V * K).
    { unfold V, K. rewrite <- Z.pow_add_r by lia. f_equal. lia. }
    rewrite H2aU in HM, Hq. rewrite H2aV in Hq.
    assert (Hm1lo : Zpos ps * (2 * U2) <= Zpos pM / K).
    { apply Z.div_le_lower_bound; [exact HK|]. nia. }
    assert (Hm1hi : Zpos pM / K < (Zpos ps + 1) * (2 * U2) - V).
    { apply Z.div_lt_upper_bound; [exact HK|]. nia. }
    assert (Hm2b : Zpos ps * (2 * U2) <= m2 < (Zpos ps + 1) * (2 * U2)) by lia.
    unfold time.int64_of_float64. cbn [cond_Zopp].
    destruct Hcase as [[-> Hm']|(-> & Hm' & Hm253)].
    + destruct (dM + eq - 53) as [|p|p] eqn:He; try lia.
      rewrite Z.shiftr_div_pow2 by lia. rewrite Hm'.
      replace (2 ^ Zpos p) with (2 * U2).
      2:{ unfold U2. change 2 with (2 ^ 1) at 1.
          rewrite <- Z.pow_add_r by lia. f_equal. lia. }
      symmetry. apply Z.div_unique with (m2 - 2 * U2 * Zpos ps); lia.
    + destruct (dM + eq - 52) as [|p|p] eqn:He; try lia.
      rewrite Z.shiftr_div_pow2 by lia. rewrite Hm'.
      replace (2 ^ Zpos p) with U2 by (unfold U2; f_equal; lia).
      change (2 ^ 53) with 9007199254740992 in *. change (2 ^ 52) with 4503599627370496.
      symmetry. apply Z.div_unique with (4503599627370496 - U2 * Zpos ps); lia.
Qed.

(** The whole seconds of a duration below [2^23] seconds (97 days):
    [int64(d.Seconds())] is the quotient of [d] by a second. *)
Lemma Seconds_truncates (d : time.Duration) :
  0 <= d < 2 ^ 23 * time.Second ->
  time.int64_of_float64 (time.Seconds d) = d / time.Second.
Proof.
  intros Hd. unfold time.Seconds.
  rewrite Z.quot_div_nonneg, Z.rem_mod_nonneg by (unfold time.Second; lia).
  pose proof (Z.mod_pos_bound d time.Second ltac:(unfold time.Second; lia)) as Hmod.
  assert (Hsec : 0 <= d / time.Second < 2 ^ 23).
  { split; [apply Z.div_pos; unfold time.Second; lia|].
    apply Z.div_lt_upper_bound; unfold time.Second in *; lia. }
  destruct (Z.eq_dec (d mod time.Second) 0) as [->|Hne].
  - change (SFdiv 53 1024 (time.float64_of_int 0) (time.float64_of_int 1000000000))
      with (S754_zero false).
    unfold time.float64_of_int, binary_normalize.
    destruct (d / time.Second) as [|ps|ps] eqn:Hq; try lia; [reflexivity|].
    destruct (binary_round_exact false ps) as (mx & -> & Hmx & Hdx).
    { change (2 ^ 23) with 8388608 in Hsec. change (2 ^ 53) with 9007199254740992. lia. }
    cbn [SFadd time.int64_of_float64 cond_Zopp].
    pose proof (Zdigits2_bounds ps) as [Hlo Hhi].
    set (ds := Zpos (digits2_pos ps)) in *.
    assert (ds <= 53).
    { destruct (Z_le_gt_dec ds 53); [assumption|exfalso].
      assert (2 ^ 53 <= 2 ^ (ds - 1)) by (apply Z.pow_le_mono_r; lia).
      change (2 ^ 23) with 8388608 in Hsec. change (2 ^ 53) with 9007199254740992 in *.
      lia. }
    destruct (ds - 53) as [|p|p] eqn:He; try lia.
    + rewrite Hmx. replace (53 - ds) with 0 by lia. rewrite Z.shiftl_0_r. lia.
    + rewrite Z.shiftr_div_pow2 by lia. rewrite Hmx.
      replace (53 - ds) with (Zpos p) by lia.
      apply Z.div_mul. apply Z.pow_nonzero; lia.
  - destruct (fraction_below_one (d mod time.Second)) as (mq & eq & -> & Heq & Hq).
    { unfold time.Second in *. lia. }
    apply add_fraction; assumption.
Qed.

(** A fraction of a second is dropped. *)
Example Seconds_fraction :
  time.int64_of_float64 (time.Seconds (1500 * 1000000)) = 1.
Proof. reflexivity. Qed.

(** C7, amended: the workload built for a plan never restarts its pod, has
    a backoff limit of zero and a termination grace period of 5 seconds.
    Its active deadline is [int64(Timeout.Seconds())]: for a timeout from
    zero to below [2^23] seconds, the whole seconds of the timeout, any
    fraction of a second dropped; and the timeout itself whenever it is a
    whole number of seconds (below [2^53] in size). *)
Theorem checkup_job_never_retried (targetNsName name : string) (checkupConfig : Config.t) :
  exists c j,
    New targetNsName name (Some checkupConfig) = Returned c /\
    job c = Some j /\
    jobTimeout c = Config.Timeout checkupConfig /\
    PodSpec.RestartPolicy (PodTemplateSpec.Spec (JobSpec.Template (Job.Spec j)))
      = RestartPolicyNever /\
    JobSpec.BackoffLimit (Job.Spec j) = Some 0 /\
    PodSpec.TerminationGracePeriodSeconds
      (PodTemplateSpec.Spec (JobSpec.Template (Job.Spec j))) = Some 5 /\
    JobSpec.ActiveDeadlineSeconds (Job.Spec j)
      = Some (time.int64_of_float64 (time.Seconds (Config.Timeout checkupConfig))) /\
    (0 <= Config.Timeout checkupConfig < 2 ^ 23 * time.Second ->
     JobSpec.ActiveDeadlineSeconds (Job.Spec j)
       = Some (Config.Timeout checkupConfig / time.Second)) /\
    forall n,
      - 2 ^ 53 < n < 2 ^ 53 ->
      Config.Timeout checkupConfig = n * time.Second ->
      JobSpec.ActiveDeadlineSeconds (Job.Spec j) = Some n.
Proof.
  unfold New. do 2 eexists. split_and!; try reflexivity.
  - intros Ht. simpl. rewrite Seconds_truncates by exact Ht. reflexivity.
  - intros n Hn Ht. simpl. rewrite Ht, Seconds_whole by exact Hn. reflexivity.
Qed.

(** The deadline for a timeout of a second and a half. *)
Lemma checkup_job_never_retried_witness :
  0 <= 1500 * 1000000 < 2 ^ 23 * time.Second /\
  exists c j,
    New "kiagnose" "vmlatency" (Some (example_config_with (1500 * 1000000))) = Returned c /\
    job c = Some j /\
    JobSpec.ActiveDeadlineSeconds (Job.Spec j) = Some (1500 * 1000000 / time.Second).
Proof.
  split; [unfold time.Second; lia|].
  destruct (checkup_job_never_retried "kiagnose" "vmlatency"
              (example_config_with (1500 * 1000000)))
    as (c & j & HNew & Hjob & _ & _ & _ & _ & _ & Hrange & _).
  exists c, j. split_and!; [exact HNew | exact Hjob |].
  apply Hrange. simpl. unfold time.Second. lia.
Defined.

(** C7 as stated fails for a timeout that is not a whole number of
    seconds: for a second and a half the deadline is one second, and for
    half a second it is zero, while [Run] waits with the timeout itself. *)
Lemma deadline_drops_fraction_of_second :
  (exists c j,
     New "kiagnose" "vmlatency" (Some (example_config_with (1500 * 1000000))) = Returned c /\
     job c = Some j /\
     jobTimeout c = 1500 * 1000000 /\
     JobSpec.ActiveDeadlineSeconds (Job.Spec j) = Some 1 /\
     1 * time.Second <> 1500 * 1000000) /\
  (exists c j,
     New "kiagnose" "vmlatency" (Some (example_config_with (500 * 1000000))) = Returned c /\
     job c = Some j /\
     jobTimeout c = 500 * 1000000 /\
     JobSpec.ActiveDeadlineSeconds (Job.Spec j) = Some 0 /\
     0 * time.Second <> 500 * 1000000).
Proof.
  split; do 2 eexists; split_and!; try reflexivity; discriminate.
Qed.

(** ** The life cycle *)

Ltac unfold_calls :=
  unfold configmap_Create, configmap_Delete, rbac_CreateRoles, rbac_CreateRoleBindings,
    rbac_DeleteRoleBindings, rbac_DeleteRoles, job_Create, job_WaitForJobToFinish,
    job_GetLogs, job_DeleteAndWait, results_ReadFromConfigMap, log_Printf, deref,
    invoke, mbind, M_bind, mret, M_ret.

Ltac solve_trace := simpl; rewrite <- ?app_assoc; reflexivity.

Ltac setup_case :=
  split; [reflexivity|];
  split; [solve_trace|];
  split; [unfold setup_plan; eexists; reflexivity|];
  split; [repeat constructor|].

Section Lifecycle.

Context {World : Type} (K : Collaborators World).

(** C2: on an instance that holds a result store, [Setup] requests the
    creation of the result store, then of the roles, then of the role
    bindings, in that order, each from the collaborators on the cluster as
    the request before left it; it stops at the first request that fails
    and returns that failure prefixed with [setup]; it never requests a
    deletion, so nothing already created is rolled back.  The events
    recorded are the collaborators' answers, and nothing is written to the
    log. *)
Theorem Setup_stops_at_first_failure (c : Checkup) (cm : ConfigMap.t) (env : Env World) :
  resultConfigMap c = Some cm ->
  exists c' res env' evs,
    Setup K c env = (Returned (c', res), env') /\
    trace env' = trace env ++ evs /\
    map ev_call evs `prefix_of` setup_plan c /\
    Forall (fun ev => is_delete (ev_call ev) = false) evs /\
    ((res = None /\ map ev_call evs = setup_plan c /\ failures evs = [])
     \/ (exists evs_ok ev err,
           evs = evs_ok ++ [ev] /\ failures evs_ok = [] /\
           ev_failure ev = Some err /\
           res = Some ("setup: " +:+ err))) /\
    (evs, world env') = answers_until_failure K (setup_plan c) (world env) /\
    stdlog env' = stdlog env.
Proof.
  intros _. unfold Setup. unfold_calls. simpl.
  destruct (configmap_Create_impl World K (world env) (resultConfigMap c))
    as [[cm1 [e1|]] w1]; simpl.
  { do 3 eexists. eexists [_]. setup_case.
    split_and!; [|reflexivity..].
    right. eexists [], _, e1. split_and!; reflexivity. }
  destruct (rbac_CreateRoles_impl World K w1 (roles c)) as [[rs [e2|]] w2]; simpl.
  { do 3 eexists. eexists [_; _]. setup_case.
    split_and!; [|reflexivity..].
    right. eexists [_], _, e2. split_and!; reflexivity. }
  destruct (rbac_CreateRoleBindings_impl World K w2 (roleBindings c))
    as [[rbs [e3|]] w3]; simpl.
  { do 3 eexists. eexists [_; _; _]. setup_case.
    split_and!; [|reflexivity..].
    right. eexists [_; _], _, e3. split_and!; reflexivity. }
  do 3 eexists. eexists [_; _; _]. setup_case.
  split_and!; [|reflexivity..].
  left. split_and!; reflexivity.
Qed.

(** No method but [Run] assigns the workload, and none assigns the
    execution timeout. *)
Lemma call_method_keeps (op : Op) (c c' : Checkup) (env env' : Env World) :
  call_method K op c env = (Returned c', env') ->
  jobTimeout c' = jobTimeout c /\ (is_Run op = false -> job c' = job c).
Proof.
  destruct op; unfold call_method, Setup, Run, Results, Logs, Teardown; unfold_calls;
    intros H; repeat case_match; simplify_eq/=;
    (split; [reflexivity | intros Hr; (reflexivity || congruence)]).
Qed.

Lemma call_methods_keep (ops : list Op) (c c' : Checkup) (env env' : Env World) :
  call_methods K ops c env = (Returned c', env') ->
  jobTimeout c' = jobTimeout c /\
  (Forall (fun op => is_Run op = false) ops -> job c' = job c).
Proof.
  revert c env. induction ops as [|op ops IH]; intros c env H.
  - inversion H; subst. split; reflexivity.
  - simpl in H. unfold mbind, M_bind in H.
    destruct (call_method K op c env) as [[c1|] env1] eqn:Hop; [|discriminate].
    apply call_method_keeps in Hop as [Ht Hj].
    apply IH in H as [Ht' Hj'].
    split; [congruence|].
    intros Hops. inversion Hops; subst. rewrite Hj', Hj by assumption. reflexivity.
Qed.

(** C3: on an instance that holds a workload, [Run] requests its creation
    from the collaborators.  When that request fails, [Run] returns the
    failure prefixed with [run] and makes no other request.  When it
    succeeds and hands back the created workload, [Run] waits for that
    workload to finish, within the execution timeout, which is the plan's
    on every instance that stems from [New]; a failure of the wait is
    returned prefixed with [run], and on success the workload the wait
    returned replaces the one held.  No request is made twice, the events
    recorded are the collaborators' answers, and nothing is written to the
    log. *)
Theorem Run_creates_then_waits (c : Checkup) (j : Job.t) (env : Env World) :
  job c = Some j ->
  (exists j1 e1 w1,
     job_Create_impl World K (world env) (Some j) = ((j1, e1), w1) /\
     (forall err,
        e1 = Some err ->
        Run K c env
        = (Returned (set_job j1 c, Some ("run: " +:+ err)),
           mkEnv w1
             (trace env ++ [mkEvent (JobCreate (Some j)) (RespJob j1 (Some err))])
             (stdlog env))) /\
     (forall created,
        e1 = None -> j1 = Some created ->
        exists j2 e2 w2,
          job_WaitForJobToFinish_impl World K w1 (Some created) (jobTimeout c)
            = ((j2, e2), w2) /\
          Run K c env
          = (Returned
               match e2 with
               | Some err => (set_job (Some created) c, Some ("run: " +:+ err))
               | None => (set_job j2 c, None)
               end,
             mkEnv w2
               (trace env ++
                  [mkEvent (JobCreate (Some j)) (RespJob (Some created) None);
                   mkEvent (JobWaitForJobToFinish (Some created) (jobTimeout c))
                     (RespJob j2 e2)])
               (stdlog env)))) /\
  (forall targetNsName name checkupConfig c0 ops env0,
     New targetNsName name (Some checkupConfig) = Returned c0 ->
     call_methods K ops c0 env0 = (Returned c, env) ->
     jobTimeout c = Config.Timeout checkupConfig).
Proof.
  intros Hjob. split.
  - unfold Run. unfold_calls. rewrite Hjob. simpl.
    destruct (job_Create_impl World K (world env) (Some j)) as [[j1 e1] w1]; simpl.
    exists j1, e1, w1. split; [reflexivity|]. split.
    + intros err ->. reflexivity.
    + intros created -> ->. simpl.
      destruct (job_WaitForJobToFinish_impl World K w1 (Some created) (jobTimeout c))
        as [[j2 e2] w2]; simpl.
      exists j2, e2, w2. split; [reflexivity|].
      destruct e2; simpl; rewrite <- app_assoc; reflexivity.
  - intros targetNsName name checkupConfig c0 ops env0 HNew Hcalls.
    apply call_methods_keep in Hcalls as [-> _].
    unfold New in HNew. injection HNew as <-. reflexivity.
Qed.

(** The text [concentrateErrors] builds lists the failures in order, each
    on a line of its own. *)
Lemma append_assoc (s1 s2 s3 : string) : (s1 +:+ s2) +:+ s3 = s1 +:+ s2 +:+ s3.
Proof.
  induction s1 as [|a s1 IH]; [reflexivity|].
  change (String a ((s1 +:+ s2) +:+ s3) = String a (s1 +:+ s2 +:+ s3)).
  f_equal. exact IH.
Qed.

Lemma append_empty_r (s : string) : s +:+ EmptyString = s.
Proof.
  induction s as [|a s IH]; [reflexivity|].
  change (String a (s +:+ EmptyString) = String a s). f_equal. exact IH.
Qed.

Lemma concentrateErrors_from (errs : list error) (sb : string) :
  fold_left (fun sb err => (sb +:+ err) +:+ newline) errs sb = sb +:+ listing errs.
Proof.
  revert sb. induction errs as [|err errs IH]; intros sb; simpl.
  - symmetry. apply append_empty_r.
  - rewrite IH. rewrite !append_assoc. reflexivity.
Qed.

Lemma concentrateErrors_listing (errs : list error) :
  concentrateErrors errs = listing errs.
Proof. unfold concentrateErrors. rewrite concentrateErrors_from. reflexivity. Qed.

(** The events of a list of requests are events of these requests, in
    order. *)
Lemma answers_calls (calls : list Call) (w : World) :
  map ev_call (answers K calls w).1 = calls.
Proof.
  revert w. induction calls as [|call calls IH]; intros w; [reflexivity|].
  simpl. destruct (answer K call w) as [r w1].
  specialize (IH w1). destruct (answers K calls w1) as [evs w2].
  simpl in *. rewrite IH. reflexivity.
Qed.

(** [Teardown], whole: its requests are answered by the collaborators one
    after the other; it panics on a nil result store and otherwise returns
    the report of the failures. *)
Lemma Teardown_spec (c : Checkup) (env : Env World) :
  Teardown K c env
  = (match resultConfigMap c with
     | Some _ => Returned (teardown_report (failures (answers K (teardown_calls c) (world env)).1))
     | None => Panicked
     end,
     mkEnv (answers K (teardown_calls c) (world env)).2
       (trace env ++ (answers K (teardown_calls c) (world env)).1)
       (stdlog env)).
Proof.
  unfold Teardown, teardown_calls, teardown_head. unfold_calls.
  destruct (resultConfigMap c) as [cm|], (job c) as [j|];
    cbn -[concentrateErrors listing].
  - destruct (job_DeleteAndWait_impl World K (world env) (Some j) (teardownTimeout c))
      as [r1 w1]; cbn -[concentrateErrors listing].
    destruct (rbac_DeleteRoleBindings_impl World K w1 (roleBindings c)) as [r2 w2];
      cbn -[concentrateErrors listing].
    destruct (rbac_DeleteRoles_impl World K w2 (roles c)) as [r3 w3];
      cbn -[concentrateErrors listing].
    destruct (configmap_Delete_impl World K w3
                (ObjectMeta.Namespace (ConfigMap.ObjectMeta cm))
                (ObjectMeta.Name (ConfigMap.ObjectMeta cm))) as [r4 w4].
    destruct r1, r2, r3, r4; cbn -[concentrateErrors listing];
      unfold teardown_report, failures, Errorf_prefixed; cbn -[concentrateErrors listing];
      rewrite <- ?app_assoc, ?concentrateErrors_listing; reflexivity.
  - destruct (rbac_DeleteRoleBindings_impl World K (world env) (roleBindings c))
      as [r2 w2]; cbn -[concentrateErrors listing].
    destruct (rbac_DeleteRoles_impl World K w2 (roles c)) as [r3 w3];
      cbn -[concentrateErrors listing].
    destruct (configmap_Delete_impl World K w3
                (ObjectMeta.Namespace (ConfigMap.ObjectMeta cm))
                (ObjectMeta.Name (ConfigMap.ObjectMeta cm))) as [r4 w4].
    destruct r2, r3, r4; cbn -[concentrateErrors listing];
      unfold teardown_report, failures, Errorf_prefixed; cbn -[concentrateErrors listing];
      rewrite <- ?app_assoc, ?concentrateErrors_listing; reflexivity.
  - destruct (job_DeleteAndWait_impl World K (world env) (Some j) (teardownTimeout c))
      as [r1 w1]; cbn.
    destruct (rbac_DeleteRoleBindings_impl World K w1 (roleBindings c)) as [r2 w2]; cbn.
    destruct (rbac_DeleteRoles_impl World K w2 (roles c)) as [r3 w3]; cbn.
    rewrite <- ?app_assoc. reflexivity.
  - destruct (rbac_DeleteRoleBindings_impl World K (world env) (roleBindings c))
      as [r2 w2]; cbn.
    destruct (rbac_DeleteRoles_impl World K w2 (roles c)) as [r3 w3]; cbn.
    rewrite <- ?app_assoc. reflexivity.
Qed.

(** On a state that holds a result store, the requests of [Teardown] are
    its plan. *)
Lemma teardown_calls_plan (c : Checkup) (cm : ConfigMap.t) :
  resultConfigMap c = Some cm -> teardown_calls c = teardown_plan c cm.
Proof.
  intros Hcm. unfold teardown_calls, teardown_head, teardown_plan, four_steps, teardown_tail.
  rewrite Hcm. destruct (job c); reflexivity.
Qed.

(** C1, amended: on a state that holds a result store, [Teardown] makes its
    deletion requests to the collaborators one after the other, each on
    the cluster as the request before left it and whatever failed before:
    the workload (waiting up to the teardown timeout) when a workload is
    held, skipped when none is; then the role bindings, the roles and the
    result store.  The events recorded are the collaborators' answers to
    these requests.  It returns no error when no request failed, and
    otherwise one error prefixed with [teardown] that lists the failures
    in the order of the steps.  Nothing is written to the log. *)
Theorem Teardown_attempts_every_step (c : Checkup) (cm : ConfigMap.t) (env : Env World) :
  resultConfigMap c = Some cm ->
  exists res env' evs,
    Teardown K c env = (Returned res, env') /\
    trace env' = trace env ++ evs /\
    map ev_call evs = teardown_plan c cm /\
    res = teardown_report (failures evs) /\
    (evs, world env') = answers K (teardown_plan c cm) (world env) /\
    stdlog env' = stdlog env.
Proof.
  intros Hcm. rewrite Teardown_spec, (teardown_calls_plan c cm Hcm), Hcm.
  do 3 eexists. split; [reflexivity|]. simpl.
  split_and!; try reflexivity.
  - apply answers_calls.
  - destruct (answers K (teardown_plan c cm) (world env)); reflexivity.
Qed.

(** C4, amended: [Logs] fails with ["job is nil"], without any request,
    exactly when the instance holds no workload.  Otherwise it requests
    the logs of the workload held; it returns the failure of that request
    as it is, and on success writes the text to the process log and
    returns no error: the text is not part of what [Logs] returns. *)
Theorem Logs_guard_is_nil_job (c : Checkup) (env : Env World) :
  match job c with
  | None => Logs K c env = (Returned (Some "job is nil"), env)
  | Some j =>
      exists logs err w,
        job_GetLogs_impl World K (world env) (Some j) = ((logs, err), w) /\
        Logs K c env =
          (Returned err,
           mkEnv w
             (trace env ++ [mkEvent (JobGetLogs (Some j)) (RespLogs logs err)])
             (stdlog env ++
                match err with
                | None => [CheckupJobLogs (ObjectMeta.Name (Job.ObjectMeta j)) logs]
                | Some _ => []
                end))
  end.
Proof.
  unfold Logs. destruct (job c) as [j|]; [|reflexivity].
  unfold_calls. simpl.
  destruct (job_GetLogs_impl World K (world env) (Some j)) as [[logs [e|]] w]; simpl.
  - exists logs, (Some e), w. split; [reflexivity|]. rewrite app_nil_r. reflexivity.
  - exists logs, None, w. split; reflexivity.
Qed.

(** [Logs] on an instance that holds a workload, as one lemma the
    invariants below can use. *)
Lemma Logs_requests_logs (c : Checkup) (j : Job.t) (env : Env World) :
  job c = Some j ->
  exists res env' logs,
    Logs K c env = (Returned res, env') /\
    trace env' = trace env ++ [mkEvent (JobGetLogs (Some j)) (RespLogs logs res)] /\
    job_GetLogs_impl World K (world env) (Some j) = ((logs, res), world env').
Proof.
  intros Hjob. unfold Logs. rewrite Hjob. unfold_calls. simpl.
  destruct (job_GetLogs_impl World K (world env) (Some j)) as [[logs [e|]] w]; simpl;
    do 3 eexists; split_and!; reflexivity.
Qed.

(** C10, amended: an instance built by [New] holds a workload from the
    start, and keeps holding that workload through any calls other than
    [Run].  As long as [Run] has not been called, [Logs] does not stop at
    its nil guard: it asks the collaborators for the logs of that
    workload; and [Teardown] starts by asking the collaborators to delete
    that workload, created or not, and to wait up to the teardown timeout;
    the events recorded are the collaborators' answers. *)
Theorem job_held_before_Run (targetNsName name : string) (checkupConfig : Config.t)
  (c0 c : Checkup) (ops : list Op) (env0 env : Env World) :
  New targetNsName name (Some checkupConfig) = Returned c0 ->
  Forall (fun op => is_Run op = false) ops ->
  call_methods K ops c0 env0 = (Returned c, env) ->
  exists j,
    job c0 = Some j /\ job c = Some j /\
    (exists res env' logs,
       Logs K c env = (Returned res, env') /\
       trace env' = trace env ++ [mkEvent (JobGetLogs (Some j)) (RespLogs logs res)] /\
       job_GetLogs_impl World K (world env) (Some j) = ((logs, res), world env')) /\
    (exists out env' ev evs,
       Teardown K c env = (out, env') /\
       trace env' = trace env ++ ev :: evs /\
       ev_call ev = JobDeleteAndWait (Some j) (teardownTimeout c) /\
       (exists r w1,
          job_DeleteAndWait_impl World K (world env) (Some j) (teardownTimeout c)
            = (r, w1) /\
          ev_resp ev = RespDone r) /\
       (ev :: evs, world env') = answers K (teardown_calls c) (world env)).
Proof.
  intros HNew Hops Hcalls.
  apply call_methods_keep in Hcalls as [_ Hjob]. specialize (Hjob Hops).
  assert (Hj0 : exists j, job c0 = Some j).
  { unfold New in HNew. injection HNew as <-. eexists. reflexivity. }
  destruct Hj0 as [j Hj0]. rewrite Hj0 in Hjob.
  exists j. split; [exact Hj0|]. split; [exact Hjob|]. split.
  - apply Logs_requests_logs. exact Hjob.
  - rewrite Teardown_spec.
    assert (Hc : exists rest,
               teardown_calls c = JobDeleteAndWait (Some j) (teardownTimeout c) :: rest).
    { unfold teardown_calls, teardown_head. rewrite Hjob. eexists. reflexivity. }
    destruct Hc as [rest ->]. simpl.
    destruct (job_DeleteAndWait_impl World K (world env) (Some j) (teardownTimeout c))
      as [r w1].
    destruct (answers K rest w1) as [evs w2]. simpl.
    do 4 eexists. split; [reflexivity|]. simpl.
    split_and!; try reflexivity. exists r, w1. split; reflexivity.
Qed.

End Lifecycle.

(** ** The life cycle on the scripted cluster *)

(** The job deletion and the role deletion fail; all four steps are
    taken and both failures are reported. *)
Lemma Teardown_attempts_every_step_witness :
  exists res env' evs,
    Teardown scripted example_checkup
      (scripted_env [Some "job is stuck"; None; Some "roles are gone"])
      = (Returned res, env') /\
    trace env' = [] ++ evs /\
    map ev_call evs
      = teardown_plan example_checkup (NewConfigMap "kiagnose" example_results_name) /\
    res = teardown_report (failures evs) /\
    (evs, world env')
      = answers scripted
          (teardown_plan example_checkup (NewConfigMap "kiagnose" example_results_name))
          [Some "job is stuck"; None; Some "roles are gone"] /\
    stdlog env' = [].
Proof.
  exact (Teardown_attempts_every_step scripted example_checkup
           (NewConfigMap "kiagnose" example_results_name)
           (scripted_env [Some "job is stuck"; None; Some "roles are gone"])
           eq_refl).
Defined.

(** The result store is created and the creation of the roles is refused. *)
Lemma Setup_stops_at_first_failure_witness :
  exists c' res env' evs,
    Setup scripted example_checkup (scripted_env [None; Some "roles are forbidden"])
      = (Returned (c', res), env') /\
    trace env' = [] ++ evs /\
    map ev_call evs `prefix_of` setup_plan example_checkup /\
    Forall (fun ev => is_delete (ev_call ev) = false) evs /\
    ((res = None /\ map ev_call evs = setup_plan example_checkup /\ failures evs = [])
     \/ (exists evs_ok ev err,
           evs = evs_ok ++ [ev] /\ failures evs_ok = [] /\
           ev_failure ev = Some err /\
           res = Some ("setup: " +:+ err))) /\
    (evs, world env')
      = answers_until_failure scripted (setup_plan example_checkup)
          [None; Some "roles are forbidden"] /\
    stdlog env' = [].
Proof.
  exact (Setup_stops_at_first_failure scripted example_checkup
           (NewConfigMap "kiagnose" example_results_name)
           (scripted_env [None; Some "roles are forbidden"])
           eq_refl).
Defined.

Example Setup_reports_refused_roles :
  (Setup scripted example_checkup (scripted_env [None; Some "roles are forbidden"])).1
  = Returned (set_roles [] example_checkup, Some "setup: roles are forbidden").
Proof. reflexivity. Qed.

(** The workload is created and the wait runs out of time. *)
Lemma Run_creates_then_waits_witness :
  job example_checkup = Some example_job /\
  (exists j1 e1 w1,
     job_Create_impl Script scripted [None; Some "deadline exceeded"] (Some example_job)
       = ((j1, e1), w1) /\
     (forall err,
        e1 = Some err ->
        Run scripted example_checkup (scripted_env [None; Some "deadline exceeded"])
        = (Returned (set_job j1 example_checkup, Some ("run: " +:+ err)),
           mkEnv w1
             ([] ++ [mkEvent (JobCreate (Some example_job)) (RespJob j1 (Some err))])
             [])) /\
     (forall created,
        e1 = None -> j1 = Some created ->
        exists j2 e2 w2,
          job_WaitForJobToFinish_impl Script scripted w1 (Some created)
            (jobTimeout example_checkup)
            = ((j2, e2), w2) /\
          Run scripted example_checkup (scripted_env [None; Some "deadline exceeded"])
          = (Returned
               match e2 with
               | Some err => (set_job (Some created) example_checkup, Some ("run: " +:+ err))
               | None => (set_job j2 example_checkup, None)
               end,
             mkEnv w2
               ([] ++
                  [mkEvent (JobCreate (Some example_job)) (RespJob (Some created) None);
                   mkEvent (JobWaitForJobToFinish (Some created)
                              (jobTimeout example_checkup))
                     (RespJob j2 e2)])
               []))) /\
  (forall targetNsName name checkupConfig c0 ops env0,
     New targetNsName name (Some checkupConfig) = Returned c0 ->
     call_methods scripted ops c0 env0
       = (Returned example_checkup, scripted_env [None; Some "deadline exceeded"]) ->
     jobTimeout example_checkup = Config.Timeout checkupConfig).
Proof.
  split; [reflexivity|].
  exact (Run_creates_then_waits scripted example_checkup example_job
           (scripted_env [None; Some "deadline exceeded"]) eq_refl).
Defined.

Example Run_reports_wait_failure :
  (Run scripted example_checkup (scripted_env [None; Some "deadline exceeded"])).1
  = Returned (example_checkup, Some "run: deadline exceeded").
Proof. reflexivity. Qed.

Example Teardown_reports_both_failures :
  (Teardown scripted example_checkup
     (scripted_env [Some "job is stuck"; None; Some "roles are gone"])).1
  = Returned (Some ("teardown: job is stuck" +:+ newline +:+ "roles are gone" +:+ newline)).
Proof. reflexivity. Qed.

(** C1 as stated fails on a state that holds no workload, such as the one
    an instance fresh from [New] is left in by a [Run] whose creation
    request fails and hands back nil: [Teardown] then takes three steps,
    not four, and reports nothing. *)
Lemma Teardown_without_job_takes_three_steps :
  New "kiagnose" "vmlatency" (Some example_config) = Returned example_checkup /\
  (Run scripted example_checkup (scripted_env [Some "forbidden"])).1
    = Returned (example_checkup_without_job, Some "run: forbidden") /\
  (Teardown scripted example_checkup_without_job (scripted_env [])).1 = Returned None /\
  map ev_call (trace (Teardown scripted example_checkup_without_job (scripted_env [])).2)
    = teardown_tail example_checkup_without_job
        (NewConfigMap "kiagnose" example_results_name) /\
  map ev_call (trace (Teardown scripted example_checkup_without_job (scripted_env [])).2)
    <> four_steps example_checkup_without_job
         (NewConfigMap "kiagnose" example_results_name).
Proof. split_and!; [reflexivity | reflexivity | reflexivity | reflexivity | discriminate]. Qed.

(** A state without a workload arises from [New] when the creation of the
    workload fails and hands back nil; [Logs] then stops at its guard. *)
Example Logs_after_failed_creation :
  exists c env,
    call_methods scripted [OpRun] example_checkup (scripted_env [Some "forbidden"])
      = (Returned c, env) /\
    job c = None /\
    Logs scripted c env = (Returned (Some "job is nil"), env).
Proof. do 2 eexists. split_and!; reflexivity. Qed.

(** On a state that holds no result store, [Teardown] takes its first
    three steps and panics on the fourth. *)
Example Teardown_without_result_store_panics :
  (Teardown scripted (set_resultConfigMap None example_checkup) (scripted_env [])).1
    = Panicked /\
  length (trace (Teardown scripted (set_resultConfigMap None example_checkup)
                   (scripted_env [])).2) = 3%nat.
Proof. split; reflexivity. Qed.

(** C4 as stated fails on an instance fresh from [New], before any [Run]:
    [Logs] does not stop with ["job is nil"], it requests the logs; it
    returns the failure of that request, or nil once the text is written
    to the process log. *)
Lemma Logs_before_Run_requests_logs :
  New "kiagnose" "vmlatency" (Some example_config) = Returned example_checkup /\
  Logs scripted example_checkup (scripted_env [Some "pod not found"])
    = (Returned (Some "pod not found"),
       mkEnv []
         [mkEvent (JobGetLogs (job example_checkup))
            (RespLogs EmptyString (Some "pod not found"))]
         []) /\
  Logs scripted example_checkup (scripted_env [])
    = (Returned None,
       mkEnv []
         [mkEvent (JobGetLogs (job example_checkup)) (RespLogs "checkup finished" None)]
         [CheckupJobLogs "vmlatency-checkup" "checkup finished"]).
Proof. split_and!; reflexivity. Qed.

(** A setup whose role creation fails, a new teardown timeout, a look at
    the logs and a teardown, all before [Run]. *)
Lemma job_held_before_Run_witness :
  exists c env,
    call_methods scripted [OpSetup; OpSetTeardownTimeout time.Minute; OpLogs; OpTeardown]
      example_checkup (scripted_env [None; Some "roles are forbidden"])
      = (Returned c, env) /\
    exists j,
      job example_checkup = Some j /\ job c = Some j /\
      (exists res env' logs,
         Logs scripted c env = (Returned res, env') /\
         trace env' = trace env ++ [mkEvent (JobGetLogs (Some j)) (RespLogs logs res)] /\
         job_GetLogs_impl Script scripted (world env) (Some j)
           = ((logs, res), world env')) /\
      (exists out env' ev evs,
         Teardown scripted c env = (out, env') /\
         trace env' = trace env ++ ev :: evs /\
         ev_call ev = JobDeleteAndWait (Some j) (teardownTimeout c) /\
         (exists r w1,
            job_DeleteAndWait_impl Script scripted (world env) (Some j) (teardownTimeout c)
              = (r, w1) /\
            ev_resp ev = RespDone r) /\
         (ev :: evs, world env') = answers scripted (teardown_calls c) (world env)).
Proof.
  do 2 eexists. split; [reflexivity|].
  eapply (job_held_before_Run scripted "kiagnose" "vmlatency" example_config
            example_checkup _
            [OpSetup; OpSetTeardownTimeout time.Minute; OpLogs; OpTeardown]
            (scripted_env [None; Some "roles are forbidden"])).
  - reflexivity.
  - repeat constructor.
  - reflexivity.
Defined.

(** C10 as stated fails once [Run] has been called: on an instance fresh
    from [New], a [Run] whose creation request is refused and hands back
    nil leaves the instance without a workload; the nil guard of [Logs]
    then triggers, and [Teardown] makes no request about the workload. *)
Lemma guard_triggers_after_failed_Run :
  New "kiagnose" "vmlatency" (Some example_config) = Returned example_checkup /\
  job example_checkup = Some example_job /\
  Run scripted example_checkup (scripted_env [Some "forbidden"])
    = (Returned (example_checkup_without_job, Some "run: forbidden"),
       mkEnv [] [mkEvent (JobCreate (Some example_job)) (RespJob None (Some "forbidden"))]
         []) /\
  job example_checkup_without_job = None /\
  Logs scripted example_checkup_without_job (scripted_env [])
    = (Returned (Some "job is nil"), scripted_env []) /\
  map ev_call (trace (Teardown scripted example_checkup_without_job (scripted_env [])).2)
    = [ RbacDeleteRoleBindings (roleBindings example_checkup);
        RbacDeleteRoles (roles example_checkup);
        ConfigMapDelete "kiagnose" example_results_name ].
Proof. split_and!; reflexivity. Qed.

(** ** What [New] builds *)

(** X1: in the instance [New] builds, the single role binding refers to the
    single role (the writer role of the result store) by its name and
    carries that name; its single subject is the service account the
    workload's pod runs as, in the workload's namespace; and the result
    store, the role, the binding and the workload all lie in the target
    namespace. *)
Theorem New_binds_pod_account_to_writer_role
  (targetNsName name : string) (checkupConfig : Config.t) :
  exists c cm role rb subject j,
    New targetNsName name (Some checkupConfig) = Returned c /\
    resultConfigMap c = Some cm /\ roles c = [role] /\ roleBindings c = [rb] /\
    job c = Some j /\
    RoleBinding.RoleRef rb
      = RoleRef.mk "Role" "rbac.authorization.k8s.io"
          (ObjectMeta.Name (Role.ObjectMeta role)) /\
    ObjectMeta.Name (RoleBinding.ObjectMeta rb) = ObjectMeta.Name (Role.ObjectMeta role) /\
    RoleBinding.Subjects rb = [subject] /\
    Subject.Kind subject = "ServiceAccount" /\
    Subject.Name subject = Config.ServiceAccountName checkupConfig /\
    PodSpec.ServiceAccountName (PodTemplateSpec.Spec (JobSpec.Template (Job.Spec j)))
      = Subject.Name subject /\
    Subject.Namespace subject = ObjectMeta.Namespace (Job.ObjectMeta j) /\
    ObjectMeta.Namespace (ConfigMap.ObjectMeta cm) = targetNsName /\
    ObjectMeta.Namespace (Role.ObjectMeta role) = targetNsName /\
    ObjectMeta.Namespace (RoleBinding.ObjectMeta rb) = targetNsName /\
    ObjectMeta.Namespace (Job.ObjectMeta j) = targetNsName.
Proof. unfold New. do 6 eexists. split_and!; reflexivity. Qed.

(** X2: the workload [New] builds has a single container, named
    [checkup], with the plan's image; its environment starts with the
    run's UID and with the name and the namespace of the result store the
    instance holds, and goes on with the plan's own variables, in their
    order and unfiltered. *)
Theorem New_passes_result_store_in_env
  (targetNsName name : string) (checkupConfig : Config.t) :
  exists c cm j container,
    New targetNsName name (Some checkupConfig) = Returned c /\
    resultConfigMap c = Some cm /\ job c = Some j /\
    PodSpec.Containers (PodTemplateSpec.Spec (JobSpec.Template (Job.Spec j)))
      = [container] /\
    Container.Name container = "checkup" /\
    Container.Image container = Config.Image checkupConfig /\
    Container.Env container
      = fixed_env_vars (Config.UID checkupConfig) cm ++ Config.EnvVars checkupConfig.
Proof. unfold New. do 4 eexists. split_and!; reflexivity. Qed.

(** X3: for a timeout from zero to below [2^23] seconds, the active
    deadline of the workload is a number of seconds that does not exceed
    the timeout [Run] waits with, and falls short of it by less than one
    second. *)
Theorem deadline_within_a_second_of_timeout
  (targetNsName name : string) (checkupConfig : Config.t) :
  0 <= Config.Timeout checkupConfig < 2 ^ 23 * time.Second ->
  exists c j n,
    New targetNsName name (Some checkupConfig) = Returned c /\
    job c = Some j /\
    JobSpec.ActiveDeadlineSeconds (Job.Spec j) = Some n /\
    0 <= n /\
    n * time.Second <= jobTimeout c < (n + 1) * time.Second.
Proof.
  intros Ht. unfold New. do 3 eexists. split_and!; try reflexivity; simpl;
    rewrite Seconds_truncates by exact Ht; unfold time.Second in *.
  - apply Z.div_pos; lia.
  - pose proof (Z.mul_div_le (Config.Timeout checkupConfig) 1000000000). lia.
  - pose proof (Z.mul_succ_div_gt (Config.Timeout checkupConfig) 1000000000). lia.
Qed.

(** A timeout of a second and a half. *)
Lemma deadline_within_a_second_of_timeout_witness :
  exists c j n,
    New "kiagnose" "vmlatency"
      (Some {| Config.UID := "0123"; Config.Image := "checkup:main";
               Config.Timeout := 1500 * 1000000;
               Config.ServiceAccountName := "sa"; Config.EnvVars := [] |})
      = Returned c /\
    job c = Some j /\
    JobSpec.ActiveDeadlineSeconds (Job.Spec j) = Some n /\
    0 <= n /\
    n * time.Second <= jobTimeout c < (n + 1) * time.Second.
Proof.
  apply (deadline_within_a_second_of_timeout "kiagnose" "vmlatency").
  simpl. unfold time.Second. lia.
Defined.

(** Beyond that range the rounding of binary64 can lift the deadline above
    the timeout. *)
Example deadline_above_timeout :
  time.int64_of_float64 (time.Seconds (2 ^ 24 * time.Second + 999999999)) = 2 ^ 24 + 1.
Proof. vm_compute. reflexivity. Qed.

(** A suffix can be cancelled. *)
Lemma append_cancel_r (s1 s2 t : string) : s1 +:+ t = s2 +:+ t -> s1 = s2.
Proof.
  assert (Hlen : forall s u, String.length (s +:+ u)
                             = (String.length s + String.length u)%nat).
  { intros s u. induction s as [|a s IH]; [reflexivity|]. simpl. rewrite IH. reflexivity. }
  revert s2. induction s1 as [|a s1 IH]; intros [|b s2] H.
  - reflexivity.
  - exfalso. apply (f_equal String.length) in H. rewrite !Hlen in H. simpl in H. lia.
  - exfalso. apply (f_equal String.length) in H. rewrite !Hlen in H. simpl in H. lia.
  - change (String a (s1 +:+ t) = String b (s2 +:+ t)) in H.
    injection H as -> H. f_equal. apply IH. exact H.
Qed.

(** X16: two runs have the same result store name, the same writer role
    name or the same workload name only when they have the same run
    name. *)
Theorem names_tell_runs_apart (r1 r2 : string) :
  (NameResultsConfigMap r1 = NameResultsConfigMap r2 <-> r1 = r2) /\
  (NameResultsConfigMapWriterRole r1 = NameResultsConfigMapWriterRole r2 <-> r1 = r2) /\
  (NameJob r1 = NameJob r2 <-> r1 = r2).
Proof.
  unfold NameResultsConfigMap, NameResultsConfigMapWriterRole, NameJob.
  split_and!; (split; [apply append_cancel_r | intros ->; reflexivity]).
Qed.

(** ** The life cycle, state and composition *)

Ltac unfold_calls_in H :=
  unfold configmap_Create, configmap_Delete, rbac_CreateRoles, rbac_CreateRoleBindings,
    rbac_DeleteRoleBindings, rbac_DeleteRoles, job_Create, job_WaitForJobToFinish,
    job_GetLogs, job_DeleteAndWait, results_ReadFromConfigMap, log_Printf, deref,
    invoke, mbind, M_bind, mret, M_ret in H.

Section MoreLifecycle.

Context {World : Type} (K : Collaborators World).


(** The requests of [Teardown], on any state and whether it returns or
    panics, with the answers of the collaborators. *)
Lemma Teardown_calls (c : Checkup) (env : Env World) :
  exists evs,
    trace (Teardown K c env).2 = trace env ++ evs /\
    map ev_call evs = teardown_calls c /\
    (evs, world (Teardown K c env).2) = answers K (teardown_calls c) (world env).
Proof.
  rewrite Teardown_spec. simpl. eexists. split_and!; [reflexivity| |].
  - apply answers_calls.
  - destruct (answers K (teardown_calls c) (world env)); reflexivity.
Qed.

(** X5: [Teardown] panics exactly when the instance holds no result
    store; by then it has requested the deletion of the workload (when it
    holds one), of the role bindings and of the roles, and it reports none
    of their failures.  The events recorded are the collaborators' answers
    to these requests. *)
Theorem Teardown_panics_iff_no_result_store (c : Checkup) (env : Env World) :
  ((Teardown K c env).1 = Panicked <-> resultConfigMap c = None) /\
  (resultConfigMap c = None ->
   exists evs,
     trace (Teardown K c env).2 = trace env ++ evs /\
     map ev_call evs = teardown_head c /\
     (evs, world (Teardown K c env).2) = answers K (teardown_head c) (world env)).
Proof.
  split.
  - rewrite Teardown_spec. simpl. destruct (resultConfigMap c); split; congruence.
  - intros Hcm. destruct (Teardown_calls c env) as (evs & Htrace & Hcalls & Hanswers).
    assert (Hhead : teardown_calls c = teardown_head c).
    { unfold teardown_calls. rewrite Hcm. apply app_nil_r. }
    rewrite Hhead in Hcalls, Hanswers.
    exists evs. split_and!; assumption.
Qed.

(** How [call_methods] runs a call and then the rest. *)
Lemma call_methods_cons (op : Op) (ops : list Op) (c c' : Checkup) (env env' : Env World) :
  call_methods K (op :: ops) c env = (Returned c', env') ->
  exists c1 env1,
    call_method K op c env = (Returned c1, env1) /\
    call_methods K ops c1 env1 = (Returned c', env').
Proof.
  simpl. unfold mbind, M_bind.
  destruct (call_method K op c env) as [[c1|] env1]; [|discriminate].
  intros H. exists c1, env1. split; [reflexivity|exact H].
Qed.

(** What each call leaves of the objects of [Setup] and of the teardown
    timeout. *)
Lemma call_method_frame (op : Op) (c c' : Checkup) (env env' : Env World) :
  call_method K op c env = (Returned c', env') ->
  teardownTimeout c' = last_teardown_timeout [op] (teardownTimeout c) /\
  (is_Setup op = false ->
   resultConfigMap c' = resultConfigMap c /\ roles c' = roles c /\
   roleBindings c' = roleBindings c).
Proof.
  destruct op; unfold call_method, Setup, Run, Results, Logs, Teardown; unfold_calls;
    intros H; repeat case_match; simplify_eq/=;
    (split; [reflexivity | intros Hs; first [discriminate | split_and!; congruence]]).
Qed.

Lemma call_methods_teardown_timeout (ops : list Op) (c c' : Checkup) (env env' : Env World) :
  call_methods K ops c env = (Returned c', env') ->
  teardownTimeout c' = last_teardown_timeout ops (teardownTimeout c).
Proof.
  revert c env. induction ops as [|op ops IH]; intros c env H.
  - inversion H; subst. reflexivity.
  - apply call_methods_cons in H as (c1 & env1 & Hop & H).
    apply call_method_frame in Hop as [Ht _]. apply IH in H.
    rewrite H, Ht. reflexivity.
Qed.

Lemma call_methods_keep_setup_objects
  (ops : list Op) (c c' : Checkup) (env env' : Env World) :
  Forall (fun op => is_Setup op = false) ops ->
  call_methods K ops c env = (Returned c', env') ->
  resultConfigMap c' = resultConfigMap c /\ roles c' = roles c /\
  roleBindings c' = roleBindings c.
Proof.
  revert c env. induction ops as [|op ops IH]; intros c env Hops H.
  - inversion H; subst. split_and!; reflexivity.
  - apply call_methods_cons in H as (c1 & env1 & Hop & H).
    inversion Hops as [|? ? Hs Hops']; subst.
    apply call_method_frame in Hop as [_ Hf]. destruct (Hf Hs) as (H1 & H2 & H3).
    destruct (IH _ _ Hops' H) as (H1' & H2' & H3').
    split_and!; congruence.
Qed.

(** X6: when the creation of the result store fails and hands back nil,
    [Setup] returns that failure prefixed with [setup] and leaves the
    instance without a result store: from then on [Teardown] and
    [Results] panic, in every state of the cluster. *)
Theorem Teardown_after_failed_store_creation_panics
  (c : Checkup) (env : Env World) (e : error) (w : World) :
  configmap_Create_impl World K (world env) (resultConfigMap c) = ((None, Some e), w) ->
  exists c' env',
    Setup K c env = (Returned (c', Some ("setup: " +:+ e)), env') /\
    resultConfigMap c' = None /\
    forall env'',
      (Teardown K c' env'').1 = Panicked /\ (Results K c' env'').1 = Panicked.
Proof.
  intros Hcreate. unfold Setup. unfold_calls. simpl. rewrite Hcreate. simpl.
  do 2 eexists. split_and!; [reflexivity..|].
  intros env''. unfold Teardown, Results. unfold_calls. simpl.
  split; [|reflexivity].
  repeat case_match; simplify_eq/=; reflexivity.
Qed.

(** X7: [Results] panics, without any request, on an instance that holds
    no result store; otherwise it issues one read request, for the
    namespace and the name of the store held, and returns what the reader
    returned, contents and error, unchanged; it writes nothing to the
    log. *)
Theorem Results_reads_the_held_store (c : Checkup) (env : Env World) :
  match resultConfigMap c with
  | None => Results K c env = (Panicked, env)
  | Some cm =>
      let namespace := ObjectMeta.Namespace (ConfigMap.ObjectMeta cm) in
      let name := ObjectMeta.Name (ConfigMap.ObjectMeta cm) in
      exists r err w,
        results_ReadFromConfigMap_impl World K (world env) namespace name = ((r, err), w) /\
        Results K c env =
          (Returned (r, err),
           mkEnv w
             (trace env ++
                [mkEvent (ResultsReadFromConfigMap namespace name) (RespResults r err)])
             (stdlog env))
  end.
Proof.
  unfold Results. unfold_calls. destruct (resultConfigMap c) as [cm|]; [|reflexivity].
  simpl.
  destruct (results_ReadFromConfigMap_impl World K (world env)
              (ObjectMeta.Namespace (ConfigMap.ObjectMeta cm))
              (ObjectMeta.Name (ConfigMap.ObjectMeta cm))) as [[r err] w].
  exists r, err, w. split; reflexivity.
Qed.

(** X8: on an instance built by [New], after any calls other than
    [Setup], [Results] does not panic and reads the store named after the
    run, [name-results], in the target namespace: it returns what the
    reader answers for that store. *)
Theorem Results_before_Setup_reads_store_of_run
  (targetNsName name : string) (checkupConfig : Config.t)
  (c0 c : Checkup) (ops : list Op) (env0 env : Env World) :
  New targetNsName name (Some checkupConfig) = Returned c0 ->
  Forall (fun op => is_Setup op = false) ops ->
  call_methods K ops c0 env0 = (Returned c, env) ->
  exists r err env',
    Results K c env = (Returned (r, err), env') /\
    trace env' = trace env ++
      [mkEvent (ResultsReadFromConfigMap targetNsName (name +:+ "-results"))
         (RespResults r err)] /\
    stdlog env' = stdlog env /\
    results_ReadFromConfigMap_impl World K (world env) targetNsName (name +:+ "-results")
      = ((r, err), world env').
Proof.
  intros HNew Hops Hcalls.
  apply call_methods_keep_setup_objects in Hcalls as (Hcm & _ & _); [|exact Hops].
  unfold New in HNew. injection HNew as <-. simpl in Hcm.
  unfold Results. rewrite Hcm. unfold_calls. simpl.
  destruct (results_ReadFromConfigMap_impl World K (world env) targetNsName
              (NameResultsConfigMap name)) as [[r err] w] eqn:Hread.
  exists r, err. eexists. split_and!; [reflexivity..|]. exact Hread.
Qed.

(** X9: the teardown timeout of an instance built by [New] is five
    minutes, whatever the plan's timeout; after any calls it is the last
    value given to [SetTeardownTimeout], or five minutes still, and that
    is the bound [Teardown] waits with for the deletion of the workload.
    The events [Teardown] records are the collaborators' answers to its
    requests. *)
Theorem teardown_timeout_default_and_override
  (targetNsName name : string) (checkupConfig : Config.t) :
  exists c0,
    New targetNsName name (Some checkupConfig) = Returned c0 /\
    teardownTimeout c0 = 300 * time.Second /\
    forall ops c env0 env,
      call_methods K ops c0 env0 = (Returned c, env) ->
      teardownTimeout c = last_teardown_timeout ops (300 * time.Second) /\
      forall j,
        job c = Some j ->
        exists evs,
          trace (Teardown K c env).2 = trace env ++ evs /\
          head (map ev_call evs)
            = Some (JobDeleteAndWait (Some j)
                      (last_teardown_timeout ops (300 * time.Second))) /\
          (evs, world (Teardown K c env).2) = answers K (teardown_calls c) (world env).
Proof.
  unfold New. eexists. split_and!; [reflexivity..|].
  intros ops c env0 env Hcalls.
  apply call_methods_teardown_timeout in Hcalls. simpl in Hcalls.
  change (time.Minute * 5) with (300 * time.Second) in Hcalls.
  split; [exact Hcalls|].
  intros j Hjob. destruct (Teardown_calls c env) as (evs & Htrace & Hev & Hanswers).
  exists evs. split_and!; [exact Htrace| |exact Hanswers].
  rewrite Hev, <- Hcalls. unfold teardown_calls, teardown_head. rewrite Hjob. reflexivity.
Qed.

(** X10: no method but [Setup] assigns the result store, the roles or the
    role bindings; after any calls other than [Setup], [Teardown] requests
    the deletion of the workload held by then (if any), then of the role
    bindings, the roles and the result store held before those calls; the
    events recorded are the collaborators' answers to these requests. *)
Theorem Teardown_deletes_objects_held_since_Setup
  (ops : list Op) (c c' : Checkup) (env env' : Env World) :
  Forall (fun op => is_Setup op = false) ops ->
  call_methods K ops c env = (Returned c', env') ->
  resultConfigMap c' = resultConfigMap c /\ roles c' = roles c /\
  roleBindings c' = roleBindings c /\
  exists evs,
    trace (Teardown K c' env').2 = trace env' ++ evs /\
    map ev_call evs
      = match job c' with
        | Some _ => [JobDeleteAndWait (job c') (teardownTimeout c')]
        | None => []
        end
        ++ [RbacDeleteRoleBindings (roleBindings c); RbacDeleteRoles (roles c)]
        ++ match resultConfigMap c with
           | Some cm =>
               [ConfigMapDelete (ObjectMeta.Namespace (ConfigMap.ObjectMeta cm))
                  (ObjectMeta.Name (ConfigMap.ObjectMeta cm))]
           | None => []
           end /\
    (evs, world (Teardown K c' env').2) = answers K (teardown_calls c') (world env').
Proof.
  intros Hops Hcalls.
  destruct (call_methods_keep_setup_objects _ _ _ _ _ Hops Hcalls) as (H1 & H2 & H3).
  split_and!; [assumption..|].
  destruct (Teardown_calls c' env') as (evs & Htrace & Hev & Hanswers).
  exists evs. split_and!; [exact Htrace| |exact Hanswers].
  rewrite Hev. unfold teardown_calls, teardown_head. rewrite H1, H2, H3.
  rewrite <- app_assoc. reflexivity.
Qed.

(** X11: when the creation of the workload fails and hands back nil, [Run]
    makes that single request, returns its failure prefixed with [run] and
    leaves the instance without a workload: [Logs] then answers
    ["job is nil"] without any request, and [Teardown] deletes the role
    bindings, the roles and the result store but makes no request about
    the workload; the events recorded are the collaborators' answers. *)
Theorem no_workload_after_failed_creation
  (c : Checkup) (env : Env World) (e : error) (w : World) :
  job_Create_impl World K (world env) (job c) = ((None, Some e), w) ->
  exists c' env',
    Run K c env = (Returned (c', Some ("run: " +:+ e)), env') /\
    trace env' = trace env ++ [mkEvent (JobCreate (job c)) (RespJob None (Some e))] /\
    job c' = None /\
    world env' = w /\ stdlog env' = stdlog env /\
    forall env'',
      Logs K c' env'' = (Returned (Some "job is nil"), env'') /\
      exists evs,
        trace (Teardown K c' env'').2 = trace env'' ++ evs /\
        map ev_call evs
          = [RbacDeleteRoleBindings (roleBindings c); RbacDeleteRoles (roles c)]
            ++ match resultConfigMap c with
               | Some cm =>
                   [ConfigMapDelete (ObjectMeta.Namespace (ConfigMap.ObjectMeta cm))
                      (ObjectMeta.Name (ConfigMap.ObjectMeta cm))]
               | None => []
               end /\
        (evs, world (Teardown K c' env'').2)
          = answers K (teardown_calls c') (world env'').
Proof.
  intros Hcreate. unfold Run. unfold_calls. simpl. rewrite Hcreate. simpl.
  do 2 eexists. split_and!; [reflexivity..|].
  intros env''. split; [reflexivity|].
  match goal with
  | |- context [Teardown K ?c' env''] =>
      destruct (Teardown_calls c' env'') as (evs & Htrace & Hev & Hanswers)
  end.
  exists evs. split_and!; [exact Htrace| |exact Hanswers]. rewrite Hev. reflexivity.
Qed.

(** X12: after a [Setup] and a [Run] that both succeed, five requests were
    made (three creations, the creation of the workload, the wait), and
    [Teardown] then deletes what the cluster handed back: the workload as
    the wait returned it, the role bindings and the roles as their
    creations returned them, and the result store by the namespace and
    name of the object its creation returned.  The five requests are
    answered by the collaborators one after the other, each on the cluster
    as the one before left it, and so are the deletions. *)
Theorem Teardown_deletes_what_was_created
  (c c1 c2 : Checkup) (env env1 env2 : Env World) :
  Setup K c env = (Returned (c1, None), env1) ->
  Run K c1 env1 = (Returned (c2, None), env2) ->
  exists cm rs rbs j j',
    trace env2 = trace env ++
      [ mkEvent (ConfigMapCreate (resultConfigMap c)) (RespConfigMap cm None);
        mkEvent (RbacCreateRoles (roles c)) (RespRoles rs None);
        mkEvent (RbacCreateRoleBindings (roleBindings c)) (RespRoleBindings rbs None);
        mkEvent (JobCreate (job c)) (RespJob j None);
        mkEvent (JobWaitForJobToFinish j (jobTimeout c)) (RespJob j' None) ] /\
    (exists evs,
       trace (Teardown K c2 env2).2 = trace env2 ++ evs /\
       map ev_call evs
         = match j' with
           | Some _ => [JobDeleteAndWait j' (teardownTimeout c)]
           | None => []
           end
           ++ [RbacDeleteRoleBindings rbs; RbacDeleteRoles rs]
           ++ match cm with
              | Some cm =>
                  [ConfigMapDelete (ObjectMeta.Namespace (ConfigMap.ObjectMeta cm))
                     (ObjectMeta.Name (ConfigMap.ObjectMeta cm))]
              | None => []
              end /\
       (evs, world (Teardown K c2 env2).2) = answers K (teardown_calls c2) (world env2)) /\
    (exists w1 w2 w3 w4,
       configmap_Create_impl World K (world env) (resultConfigMap c) = ((cm, None), w1) /\
       rbac_CreateRoles_impl World K w1 (roles c) = ((rs, None), w2) /\
       rbac_CreateRoleBindings_impl World K w2 (roleBindings c) = ((rbs, None), w3) /\
       job_Create_impl World K w3 (job c) = ((j, None), w4) /\
       job_WaitForJobToFinish_impl World K w4 j (jobTimeout c)
         = ((j', None), world env2)).
Proof.
  intros HS HR.
  unfold Setup in HS. unfold_calls_in HS. simpl in HS.
  destruct (configmap_Create_impl World K (world env) (resultConfigMap c))
    as [[cm [e1|]] w1] eqn:H1; simpl in HS; [discriminate|].
  destruct (rbac_CreateRoles_impl World K w1 (roles c)) as [[rs [e2|]] w2] eqn:H2;
    simpl in HS; [discriminate|].
  destruct (rbac_CreateRoleBindings_impl World K w2 (roleBindings c))
    as [[rbs [e3|]] w3] eqn:H3; simpl in HS; [discriminate|].
  injection HS as <- <-.
  unfold Run in HR. unfold_calls_in HR. simpl in HR.
  destruct (job_Create_impl World K w3 (job c)) as [[j [e4|]] w4] eqn:H4;
    simpl in HR; [discriminate|].
  destruct (job_WaitForJobToFinish_impl World K w4 j (jobTimeout c))
    as [[j' [e5|]] w5] eqn:H5; simpl in HR; [discriminate|].
  injection HR as <- <-.
  exists cm, rs, rbs, j, j'. simpl. split; [rewrite <- !app_assoc; reflexivity|].
  split.
  - match goal with
    | |- context [Teardown K ?c2 ?env2] =>
        destruct (Teardown_calls c2 env2) as (evs & Htrace & Hev & Hanswers)
    end.
    exists evs. split_and!; [exact Htrace| |exact Hanswers]. rewrite Hev.
    unfold teardown_calls, teardown_head. simpl. rewrite <- app_assoc. reflexivity.
  - exists w1, w2, w3, w4. simpl in *.
    split_and!; first [assumption | reflexivity].
Qed.

End MoreLifecycle.

(** *** On the scripted cluster *)

(** The creation of the result store is refused on the scripted cluster. *)
Lemma Teardown_after_failed_store_creation_panics_witness :
  exists c' env',
    Setup scripted example_checkup (scripted_env [Some "config maps are forbidden"])
      = (Returned (c', Some ("setup: " +:+ "config maps are forbidden")), env') /\
    resultConfigMap c' = None /\
    forall env'',
      (Teardown scripted c' env'').1 = Panicked /\ (Results scripted c' env'').1 = Panicked.
Proof.
  exact (Teardown_after_failed_store_creation_panics scripted example_checkup
           (scripted_env [Some "config maps are forbidden"])
           "config maps are forbidden" [] eq_refl).
Defined.

(** A run and a look at the logs, then the results, without any setup. *)
Lemma Results_before_Setup_reads_store_of_run_witness :
  exists c env,
    call_methods scripted [OpRun; OpLogs] example_checkup (scripted_env [])
      = (Returned c, env) /\
    exists r err env',
      Results scripted c env = (Returned (r, err), env') /\
      trace env' = trace env ++
        [mkEvent (ResultsReadFromConfigMap "kiagnose" ("vmlatency" +:+ "-results"))
           (RespResults r err)] /\
      stdlog env' = stdlog env /\
      results_ReadFromConfigMap_impl Script scripted (world env) "kiagnose"
        ("vmlatency" +:+ "-results")
        = ((r, err), world env').
Proof.
  do 2 eexists. split; [reflexivity|].
  eapply (Results_before_Setup_reads_store_of_run scripted "kiagnose" "vmlatency"
            example_config example_checkup _ [OpRun; OpLogs] (scripted_env [])).
  - reflexivity.
  - repeat constructor.
  - reflexivity.
Defined.

(** A run, a new teardown timeout and a look at the logs, then the teardown. *)
Lemma Teardown_deletes_objects_held_since_Setup_witness :
  exists c' env',
    call_methods scripted [OpRun; OpSetTeardownTimeout time.Minute; OpLogs]
      example_checkup (scripted_env []) = (Returned c', env') /\
    resultConfigMap c' = resultConfigMap example_checkup /\
    roles c' = roles example_checkup /\
    roleBindings c' = roleBindings example_checkup /\
    exists evs,
      trace (Teardown scripted c' env').2 = trace env' ++ evs /\
      map ev_call evs
        = match job c' with
          | Some _ => [JobDeleteAndWait (job c') (teardownTimeout c')]
          | None => []
          end
          ++ [RbacDeleteRoleBindings (roleBindings example_checkup);
              RbacDeleteRoles (roles example_checkup)]
          ++ match resultConfigMap example_checkup with
             | Some cm =>
                 [ConfigMapDelete (ObjectMeta.Namespace (ConfigMap.ObjectMeta cm))
                    (ObjectMeta.Name (ConfigMap.ObjectMeta cm))]
             | None => []
             end /\
      (evs, world (Teardown scripted c' env').2)
        = answers scripted (teardown_calls c') (world env').
Proof.
  do 2 eexists. split; [reflexivity|].
  eapply (Teardown_deletes_objects_held_since_Setup scripted
            [OpRun; OpSetTeardownTimeout time.Minute; OpLogs]
            example_checkup _ (scripted_env [])).
  - repeat constructor.
  - reflexivity.
Defined.

(** The creation of the workload is refused on the scripted cluster. *)
Lemma no_workload_after_failed_creation_witness :
  exists c' env',
    Run scripted example_checkup (scripted_env [Some "forbidden"])
      = (Returned (c', Some ("run: " +:+ "forbidden")), env') /\
    trace env' = [] ++
      [mkEvent (JobCreate (job example_checkup)) (RespJob None (Some "forbidden"))] /\
    job c' = None /\
    world env' = [] /\ stdlog env' = [] /\
    forall env'',
      Logs scripted c' env'' = (Returned (Some "job is nil"), env'') /\
      exists evs,
        trace (Teardown scripted c' env'').2 = trace env'' ++ evs /\
        map ev_call evs
          = [RbacDeleteRoleBindings (roleBindings example_checkup);
             RbacDeleteRoles (roles example_checkup)]
            ++ match resultConfigMap example_checkup with
               | Some cm =>
                   [ConfigMapDelete (ObjectMeta.Namespace (ConfigMap.ObjectMeta cm))
                      (ObjectMeta.Name (ConfigMap.ObjectMeta cm))]
               | None => []
               end /\
        (evs, world (Teardown scripted c' env'').2)
          = answers scripted (teardown_calls c') (world env'').
Proof.
  exact (no_workload_after_failed_creation scripted example_checkup
           (scripted_env [Some "forbidden"]) "forbidden" [] eq_refl).
Defined.

(** Every request succeeds on the scripted cluster. *)
Lemma Teardown_deletes_what_was_created_witness :
  exists c1 env1 c2 env2,
    Setup scripted example_checkup (scripted_env []) = (Returned (c1, None), env1) /\
    Run scripted c1 env1 = (Returned (c2, None), env2) /\
    exists cm rs rbs j j',
      trace env2 = [] ++
        [ mkEvent (ConfigMapCreate (resultConfigMap example_checkup))
            (RespConfigMap cm None);
          mkEvent (RbacCreateRoles (roles example_checkup)) (RespRoles rs None);
          mkEvent (RbacCreateRoleBindings (roleBindings example_checkup))
            (RespRoleBindings rbs None);
          mkEvent (JobCreate (job example_checkup)) (RespJob j None);
          mkEvent (JobWaitForJobToFinish j (jobTimeout example_checkup))
            (RespJob j' None) ] /\
      (exists evs,
         trace (Teardown scripted c2 env2).2 = trace env2 ++ evs /\
         map ev_call evs
           = match j' with
             | Some _ => [JobDeleteAndWait j' (teardownTimeout example_checkup)]
             | None => []
             end
             ++ [RbacDeleteRoleBindings rbs; RbacDeleteRoles rs]
             ++ match cm with
                | Some cm =>
                    [ConfigMapDelete (ObjectMeta.Namespace (ConfigMap.ObjectMeta cm))
                       (ObjectMeta.Name (ConfigMap.ObjectMeta cm))]
                | None => []
                end /\
         (evs, world (Teardown scripted c2 env2).2)
           = answers scripted (teardown_calls c2) (world env2)) /\
      (exists w1 w2 w3 w4,
         configmap_Create_impl Script scripted [] (resultConfigMap example_checkup)
           = ((cm, None), w1) /\
         rbac_CreateRoles_impl Script scripted w1 (roles example_checkup)
           = ((rs, None), w2) /\
         rbac_CreateRoleBindings_impl Script scripted w2 (roleBindings example_checkup)
           = ((rbs, None), w3) /\
         job_Create_impl Script scripted w3 (job example_checkup) = ((j, None), w4) /\
         job_WaitForJobToFinish_impl Script scripted w4 j (jobTimeout example_checkup)
           = ((j', None), world env2)).
Proof.
  do 4 eexists.
  split; [unfold Setup; unfold_calls; simpl; reflexivity|].
  split; [unfold Run; unfold_calls; simpl; reflexivity|].
  eapply (Teardown_deletes_what_was_created scripted example_checkup _ _
            (scripted_env []));
    [unfold Setup | unfold Run]; unfold_calls; simpl; reflexivity.
Defined.


(** ** The aggregated report *)

Lemma listing_app (errs1 errs2 : list error) :
  listing (errs1 ++ errs2) = listing errs1 +:+ listing errs2.
Proof.
  induction errs1 as [|err errs1 IH]; [reflexivity|].
  simpl. rewrite IH. rewrite !append_assoc. reflexivity.
Qed.

Lemma length_append (s1 s2 : string) :
  String.length (s1 +:+ s2) = (String.length s1 + String.length s2)%nat.
Proof. induction s1 as [|a s1 IH]; [reflexivity|]. simpl. rewrite IH. reflexivity. Qed.

(** X13: the text of [concentrateErrors] for two lists put end to end is
    the two texts put end to end; the text is empty only for no failure at
    all; its length is the total length of the messages plus one newline
    for each. *)
Theorem concentrateErrors_concatenates (errs1 errs2 : list error) :
  concentrateErrors (errs1 ++ errs2)
    = concentrateErrors errs1 +:+ concentrateErrors errs2 /\
  (concentrateErrors errs1 = EmptyString <-> errs1 = []) /\
  String.length (concentrateErrors errs1)
    = (sum_list (map String.length errs1) + length errs1)%nat.
Proof.
  rewrite !concentrateErrors_listing. split_and!.
  - apply listing_app.
  - destruct errs1 as [|err errs]; [split; reflexivity|].
    split; [|discriminate]. simpl. intros H.
    apply (f_equal String.length) in H. rewrite !length_append in H.
    unfold newline in H. simpl in H. exfalso. lia.
  - induction errs1 as [|err errs IH]; [reflexivity|].
    simpl. rewrite !length_append, IH. unfold newline. simpl. lia.
Qed.

(** Two texts that start with a line free of newlines agree only when the
    lines and the rests agree. *)
Lemma first_line_inj (s1 s2 r1 r2 : string) :
  newline_free s1 = true -> newline_free s2 = true ->
  s1 +:+ newline +:+ r1 = s2 +:+ newline +:+ r2 ->
  s1 = s2 /\ r1 = r2.
Proof.
  revert s2. induction s1 as [|a s1 IH]; intros [|b s2] H1 H2 H; simpl in *.
  - injection H as H. split; [reflexivity|exact H].
  - injection H as Ha H. subst b. discriminate H2.
  - injection H as Ha H. subst a. discriminate H1.
  - injection H as Ha H. subst b.
    apply andb_prop in H1 as [_ H1]. apply andb_prop in H2 as [_ H2].
    destruct (IH s2 H1 H2 H) as [-> ->]. split; reflexivity.
Qed.

(** X14: two lists of failures whose messages hold no newline give the
    same text only when they are the same list: the report of [Teardown]
    tells such failures apart, in number, order and wording. *)
Theorem concentrateErrors_keeps_failures_apart (errs1 errs2 : list error) :
  forallb newline_free errs1 = true ->
  forallb newline_free errs2 = true ->
  concentrateErrors errs1 = concentrateErrors errs2 ->
  errs1 = errs2.
Proof.
  rewrite !concentrateErrors_listing.
  revert errs2. induction errs1 as [|e1 errs1 IH]; intros [|e2 errs2] H1 H2 H.
  - reflexivity.
  - exfalso. apply (f_equal String.length) in H. simpl in H.
    rewrite !length_append in H. unfold newline in H. simpl in H. lia.
  - exfalso. apply (f_equal String.length) in H. simpl in H.
    rewrite !length_append in H. unfold newline in H. simpl in H. lia.
  - simpl in H1, H2, H.
    apply andb_prop in H1 as [Hn1 H1]. apply andb_prop in H2 as [Hn2 H2].
    destruct (first_line_inj _ _ _ _ Hn1 Hn2 H) as [-> Hr].
    f_equal. apply IH; assumption.
Qed.

(** Two failures of a teardown. *)
Lemma concentrateErrors_keeps_failures_apart_witness :
  ["job is stuck"; "roles are gone"] = ["job is stuck"; "roles are gone"].
Proof.
  apply concentrateErrors_keeps_failures_apart; reflexivity.
Defined.

(** A failure whose message spans two lines reads like two failures. *)
Example concentrateErrors_merges_lines :
  concentrateErrors ["job is stuck" +:+ newline +:+ "roles are gone"]
  = concentrateErrors ["job is stuck"; "roles are gone"].
Proof. reflexivity. Qed.

(** ** Package [serviceaccount] *)

Section ServiceAccountCreate.

Context {World : Type} (client : serviceaccount.CoreV1Interface World).

(** X15: [serviceaccount.Create] panics on a nil object before any
    request.  Otherwise it makes one request, in the namespace of the
    object submitted; when the request fails it returns nil (whatever
    object came back) with the client's error unchanged and logs nothing;
    when it succeeds it returns the created object and logs one line that
    names the namespace and the name of the object submitted. *)
Theorem Create_returns_object_or_error
  (sa : ServiceAccount.t) (env : serviceaccount.Env World) :
  serviceaccount.Create client None env = (Panicked, env) /\
  exists createdSa err w,
    serviceaccount.ServiceAccounts_Create World client (serviceaccount.world env)
      (ObjectMeta.Namespace (ServiceAccount.ObjectMeta sa)) sa
      = ((createdSa, err), w) /\
    serviceaccount.Create client (Some sa) env =
      (Returned (match err with None => createdSa | Some _ => None end, err),
       serviceaccount.mkEnv w
         (serviceaccount.requests env ++
            [serviceaccount.mkRequest
               (ObjectMeta.Namespace (ServiceAccount.ObjectMeta sa)) sa])
         (serviceaccount.stdlog env ++
            match err with
            | None =>
                [serviceaccount.created_line
                   (ObjectMeta.Namespace (ServiceAccount.ObjectMeta sa))
                   (ObjectMeta.Name (ServiceAccount.ObjectMeta sa))]
            | Some _ => []
            end)).
Proof.
  split; [reflexivity|].
  unfold serviceaccount.Create.
  destruct (serviceaccount.ServiceAccounts_Create World client (serviceaccount.world env)
              (ObjectMeta.Namespace (ServiceAccount.ObjectMeta sa)) sa)
    as [[createdSa [e|]] w]; simpl.
  - exists createdSa, (Some e), w. split; [reflexivity|]. rewrite app_nil_r. reflexivity.
  - exists createdSa, None, w. split; reflexivity.
Qed.

End ServiceAccountCreate.

(** ** The parameter validator *)

Section ValidatorProperties.

Import vmlatency.

Variables (intSize : Z) (defaultSampleDuration defaultMaxLatency : Z).

Lemma nonempty_params (params : gmap string string) (key v : string) :
  params !! key = Some v -> (size params =? 0)%nat = false.
Proof.
  intros H. apply Nat.eqb_neq. apply (map_size_ne_0_lookup_2 params key). eauto.
Qed.

Lemma mandatoryParam_ok (params : gmap string string) (key v : string) (err : error) :
  params !! key = Some v -> v <> EmptyString ->
  mandatoryParam params key err = Ok v.
Proof.
  intros H Hv. unfold mandatoryParam. rewrite H. destruct v; [contradiction|reflexivity].
Qed.

Lemma optionalIntParam_ok (params : gmap string string) (key : string) (default : Z) :
  numeric_key_ok intSize params key ->
  exists v, optionalIntParam intSize params key default = Ok v /\
            (params !! key = None -> v = default).
Proof.
  intros Hok. unfold optionalIntParam.
  destruct (params !! key) as [raw|] eqn:Hraw.
  - destruct (Hok raw Hraw) as [v ->]. exists v. split; [reflexivity|discriminate].
  - exists default. split; reflexivity.
Qed.

Lemma optionalIntParam_cases (params : gmap string string) (key : string) (default : Z) :
  match params !! key with
  | None => optionalIntParam intSize params key default = Ok default
  | Some raw =>
      match numeric raw with
      | None => optionalIntParam intSize params key default = Err (Wrapped key ErrSyntax)
      | Some v =>
          if v <=? maxInt intSize
          then optionalIntParam intSize params key default = Ok v
          else optionalIntParam intSize params key default = Err (Wrapped key ErrRange)
      end
  end.
Proof.
  unfold optionalIntParam, parseInt.
  destruct (params !! key) as [raw|]; [|reflexivity].
  destruct (numeric raw) as [v|]; [|reflexivity].
  destruct (v <=? maxInt intSize); reflexivity.
Qed.

Lemma nodeNamesParams_legal (params : gmap string string) :
  (exists names, nodeNamesParams params = Ok names) <-> node_names_legal params.
Proof.
  unfold nodeNamesParams, node_names_legal.
  destruct (params !! SourceNodeNameParamName) as [[|a s]|],
           (params !! TargetNodeNameParamName) as [[|b t]|]; split.
  all: try (intros [names H]; discriminate H).
  all: try (intros [[H1 H2]|(s' & t' & H1 & H2 & Hs & Ht)]; simplify_eq; fail).
  all: try (intros _; eexists; reflexivity).
  all: intros _.
  - right. do 2 eexists. split_and!; try reflexivity; discriminate.
  - left. split; reflexivity.
Qed.

Lemma nodeNamesParams_illegal (params : gmap string string) :
  ~ node_names_legal params ->
  nodeNamesParams params = Err ErrIllegalSourceAndTargetNodesCombination.
Proof.
  intros Hn. destruct (nodeNamesParams params) as [names|e] eqn:H.
  - exfalso. apply Hn. apply nodeNamesParams_legal. eauto.
  - revert H. unfold nodeNamesParams. repeat case_match; congruence.
Qed.

(** C5, amended: on an input whose mandatory keys are present and not
    empty and whose numeric keys are absent or valid, the validator
    accepts exactly when the two node names are both absent or both
    present and not empty; on every other combination it fails with
    [ErrIllegalSourceAndTargetNodesCombination]. *)
Theorem node_names_pair_rule (params : gmap string string) :
  mandatory_ok params ->
  numeric_key_ok intSize params SampleDurationSecondsParamName ->
  numeric_key_ok intSize params DesiredMaxLatencyMillisecondsParamName ->
  ((exists cfg, New intSize defaultSampleDuration defaultMaxLatency params = Ok cfg)
   <-> node_names_legal params) /\
  (~ node_names_legal params ->
   New intSize defaultSampleDuration defaultMaxLatency params
     = Err ErrIllegalSourceAndTargetNodesCombination).
Proof.
  intros (name & namespace & Hname & Hne & Hns & Hnse) Hdur Hlat.
  unfold vmlatency.New.
  rewrite (nonempty_params _ _ _ Hname).
  rewrite (mandatoryParam_ok _ _ _ _ Hname Hne), (mandatoryParam_ok _ _ _ _ Hns Hnse).
  destruct (optionalIntParam_ok params SampleDurationSecondsParamName
              defaultSampleDuration Hdur) as (d & -> & _).
  destruct (optionalIntParam_ok params DesiredMaxLatencyMillisecondsParamName
              defaultMaxLatency Hlat) as (l & -> & _).
  split.
  - rewrite <- nodeNamesParams_legal.
    destruct (nodeNamesParams params) as [[source target]|e]; split;
      intros [x H]; try discriminate H; eauto.
  - intros Hn. rewrite (nodeNamesParams_illegal _ Hn). reflexivity.
Qed.

(** C6, amended: on an input whose mandatory keys are present and not
    empty, and for a numeric key such that the other numeric key is absent
    or valid: when the key is absent and the node names are legal, the
    validator returns a plan, and the plan holds the key's default (as
    does any plan returned for an input without the key); when its value
    is not numeric the validator fails with an error that wraps the syntax
    cause; when its value is an integer past the representable range the
    validator fails with an error that wraps the range cause;
    [errors.Is] tells the two apart. *)
Theorem numeric_key_default_or_cause (k : NumericKey) (params : gmap string string) :
  mandatory_ok params ->
  numeric_key_ok intSize params (key_name (other_key k)) ->
  (params !! key_name k = None ->
   (forall cfg,
      New intSize defaultSampleDuration defaultMaxLatency params = Ok cfg ->
      key_field k cfg = key_default k defaultSampleDuration defaultMaxLatency) /\
   (node_names_legal params ->
    exists cfg,
      New intSize defaultSampleDuration defaultMaxLatency params = Ok cfg /\
      key_field k cfg = key_default k defaultSampleDuration defaultMaxLatency)) /\
  (forall raw,
     params !! key_name k = Some raw -> numeric raw = None ->
     exists e,
       New intSize defaultSampleDuration defaultMaxLatency params = Err e /\
       Unwrap e = Some ErrSyntax /\
       errors_Is e ErrSyntax = true /\ errors_Is e ErrRange = false) /\
  (forall raw v,
     params !! key_name k = Some raw -> numeric raw = Some v -> maxInt intSize < v ->
     exists e,
       New intSize defaultSampleDuration defaultMaxLatency params = Err e /\
       Unwrap e = Some ErrRange /\
       errors_Is e ErrRange = true /\ errors_Is e ErrSyntax = false).
Proof.
  intros (name & namespace & Hname & Hne & Hns & Hnse) Hother.
  unfold vmlatency.New.
  rewrite (nonempty_params _ _ _ Hname).
  rewrite (mandatoryParam_ok _ _ _ _ Hname Hne), (mandatoryParam_ok _ _ _ _ Hns Hnse).
  destruct k; simpl in *.
  - pose proof (optionalIntParam_cases params SampleDurationSecondsParamName
                  defaultSampleDuration) as Hd.
    split_and!.
    + intros Hnone. rewrite Hnone in Hd. rewrite Hd.
      destruct (optionalIntParam_ok params DesiredMaxLatencyMillisecondsParamName
                  defaultMaxLatency Hother) as (l & -> & _).
      split.
      * intros cfg Hcfg. repeat case_match; simplify_eq. reflexivity.
      * intros Hlegal. apply nodeNamesParams_legal in Hlegal as [[source target] ->].
        eexists. split; reflexivity.
    + intros raw Hraw Hnum. rewrite Hraw, Hnum in Hd. rewrite Hd.
      eexists. split_and!; reflexivity.
    + intros raw v Hraw Hnum Hv. rewrite Hraw, Hnum in Hd.
      replace (v <=? maxInt intSize) with false in Hd by (symmetry; apply Z.leb_gt; lia).
      rewrite Hd. eexists. split_and!; reflexivity.
  - destruct (optionalIntParam_ok params SampleDurationSecondsParamName
                defaultSampleDuration Hother) as (d & -> & _).
    pose proof (optionalIntParam_cases params DesiredMaxLatencyMillisecondsParamName
                  defaultMaxLatency) as Hl.
    split_and!.
    + intros Hnone. rewrite Hnone in Hl. rewrite Hl. split.
      * intros cfg Hcfg. repeat case_match; simplify_eq. reflexivity.
      * intros Hlegal. apply nodeNamesParams_legal in Hlegal as [[source target] ->].
        eexists. split; reflexivity.
    + intros raw Hraw Hnum. rewrite Hraw, Hnum in Hl. rewrite Hl.
      eexists. split_and!; reflexivity.
    + intros raw v Hraw Hnum Hv. rewrite Hraw, Hnum in Hl.
      replace (v <=? maxInt intSize) with false in Hl by (symmetry; apply Z.leb_gt; lia).
      rewrite Hl. eexists. split_and!; reflexivity.
Qed.

End ValidatorProperties.

(** ** The validator on the inputs of its tests

    The cases of the package's test file, for a 64-bit [int] and whatever
    the two defaults are. *)

Import vmlatency.

Example test_defaults_when_missing (d l : Z) :
  New 64 d l (<[DesiredMaxLatencyMillisecondsParamName := "100"]> mandatory_only)
    = Ok (mkConfig d "blue-net" "default" 100 EmptyString EmptyString) /\
  New 64 d l (<[SampleDurationSecondsParamName := "60"]> mandatory_only)
    = Ok (mkConfig 60 "blue-net" "default" l EmptyString EmptyString).
Proof. split; reflexivity. Qed.

Example test_source_and_target_nodes (d l : Z) :
  New 64 d l
    (<[SampleDurationSecondsParamName := "60"]>
       (<[SourceNodeNameParamName := "worker1"]>
          (<[TargetNodeNameParamName := "worker2"]> mandatory_only)))
    = Ok (mkConfig 60 "blue-net" "default" l "worker1" "worker2").
Proof. reflexivity. Qed.

Example test_invalid_params (d l : Z) :
  New 64 d l ∅ = Err ErrInvalidParams.
Proof. reflexivity. Qed.

Example test_mandatory_params (d l : Z) :
  New 64 d l (<[NetworkNamespaceParamName := "default"]> ∅) = Err ErrInvalidNetworkName /\
  New 64 d l (<[NetworkNameParamName := "blue-net"]> ∅) = Err ErrInvalidNetworkNamespace /\
  New 64 d l (<[NetworkNameParamName := EmptyString]> mandatory_only)
    = Err ErrInvalidNetworkName /\
  New 64 d l (<[NetworkNamespaceParamName := EmptyString]> mandatory_only)
    = Err ErrInvalidNetworkNamespace.
Proof. split_and!; reflexivity. Qed.

Example test_node_names (d l : Z) :
  New 64 d l source_only = Err ErrIllegalSourceAndTargetNodesCombination /\
  New 64 d l (<[TargetNodeNameParamName := "worker2"]> mandatory_only)
    = Err ErrIllegalSourceAndTargetNodesCombination /\
  New 64 d l
    (<[SourceNodeNameParamName := EmptyString]>
       (<[TargetNodeNameParamName := "worker2"]> mandatory_only))
    = Err ErrIllegalSourceAndTargetNodesCombination /\
  New 64 d l
    (<[SourceNodeNameParamName := "worker1"]>
       (<[TargetNodeNameParamName := EmptyString]> mandatory_only))
    = Err ErrIllegalSourceAndTargetNodesCombination.
Proof. split_and!; reflexivity. Qed.

Example test_integer_params (d l : Z) :
  (exists e,
     New 64 d l (<[SampleDurationSecondsParamName := "3rr0r"]> mandatory_only) = Err e /\
     errors_Is e ErrSyntax = true) /\
  (exists e,
     New 64 d l huge_latency = Err e /\ errors_Is e ErrRange = true).
Proof. split; eexists; split; reflexivity. Qed.

(** Helpers to discharge the side conditions on concrete inputs. *)
Lemma mandatory_only_ok (params : gmap string string) :
  params !! NetworkNameParamName = Some "blue-net" ->
  params !! NetworkNamespaceParamName = Some "default" ->
  mandatory_ok params.
Proof.
  intros H1 H2. exists "blue-net", "default". split_and!; (assumption || discriminate).
Defined.

Lemma absent_key_ok (intSize : Z) (params : gmap string string) (key : string) :
  params !! key = None -> numeric_key_ok intSize params key.
Proof. intros H raw Hraw. rewrite H in Hraw. discriminate Hraw. Defined.

(** The pair rule on the input with a source node only. *)
Lemma node_names_pair_rule_witness :
  ((exists cfg, New 64 5 0 source_only = Ok cfg) <-> node_names_legal source_only) /\
  (~ node_names_legal source_only ->
   New 64 5 0 source_only = Err ErrIllegalSourceAndTargetNodesCombination).
Proof.
  apply (node_names_pair_rule 64 5 0 source_only).
  - apply mandatory_only_ok; reflexivity.
  - apply absent_key_ok. reflexivity.
  - apply absent_key_ok. reflexivity.
Defined.

(** C5 as stated fails on an input that holds the mandatory keys and a
    source node only, when its sample duration is not numeric: the numeric
    keys are checked before the pair, and the failure reported is theirs.
    Likewise when a mandatory key is there with an empty value. *)
Lemma bad_duration_hides_node_names :
  (bad_duration_and_source_only !! NetworkNameParamName = Some "blue-net" /\
   bad_duration_and_source_only !! NetworkNamespaceParamName = Some "default" /\
   bad_duration_and_source_only !! SourceNodeNameParamName = Some "worker1" /\
   bad_duration_and_source_only !! TargetNodeNameParamName = None /\
   New 64 5 0 bad_duration_and_source_only
     = Err (Wrapped SampleDurationSecondsParamName ErrSyntax)) /\
  (empty_name_and_source_only !! NetworkNameParamName = Some EmptyString /\
   empty_name_and_source_only !! NetworkNamespaceParamName = Some "default" /\
   empty_name_and_source_only !! SourceNodeNameParamName = Some "worker1" /\
   empty_name_and_source_only !! TargetNodeNameParamName = None /\
   New 64 5 0 empty_name_and_source_only = Err ErrInvalidNetworkName).
Proof. split_and!; reflexivity. Qed.

(** The numeric rule for the max latency, on the input of the range test. *)
Lemma numeric_key_default_or_cause_witness :
  (huge_latency !! key_name MaxLatency = None ->
   (forall cfg,
      New 64 5 0 huge_latency = Ok cfg ->
      key_field MaxLatency cfg = key_default MaxLatency 5 0) /\
   (node_names_legal huge_latency ->
    exists cfg,
      New 64 5 0 huge_latency = Ok cfg /\
      key_field MaxLatency cfg = key_default MaxLatency 5 0)) /\
  (forall raw,
     huge_latency !! key_name MaxLatency = Some raw -> numeric raw = None ->
     exists e,
       New 64 5 0 huge_latency = Err e /\
       Unwrap e = Some ErrSyntax /\
       errors_Is e ErrSyntax = true /\ errors_Is e ErrRange = false) /\
  (forall raw v,
     huge_latency !! key_name MaxLatency = Some raw -> numeric raw = Some v ->
     maxInt 64 < v ->
     exists e,
       New 64 5 0 huge_latency = Err e /\
       Unwrap e = Some ErrRange /\
       errors_Is e ErrRange = true /\ errors_Is e ErrSyntax = false).
Proof.
  apply (numeric_key_default_or_cause 64 5 0 MaxLatency huge_latency).
  - apply mandatory_only_ok; reflexivity.
  - apply absent_key_ok. reflexivity.
Defined.

(** The default of the sample duration, on the input that holds the
    mandatory keys only: a plan is returned. *)
Example sample_duration_defaults :
  New 64 5 0 mandatory_only = Ok (mkConfig 5 "blue-net" "default" 0 EmptyString EmptyString).
Proof. reflexivity. Qed.

(** C6 as stated fails on an input whose two numeric keys are both
    invalid, the sample duration out of range and the max latency not
    numeric: one error is reported, and it wraps one cause only, here the
    range cause of the sample duration and no syntax cause.  And on an
    input without the network name no numeric cause is reported at all. *)
Lemma huge_duration_hides_bad_latency :
  (huge_duration_and_bad_latency !! NetworkNameParamName = Some "blue-net" /\
   huge_duration_and_bad_latency !! NetworkNamespaceParamName = Some "default" /\
   huge_duration_and_bad_latency !! DesiredMaxLatencyMillisecondsParamName
     = Some "3rr0r" /\
   numeric "3rr0r" = None /\
   New 64 5 0 huge_duration_and_bad_latency
     = Err (Wrapped SampleDurationSecondsParamName ErrRange) /\
   errors_Is (Wrapped SampleDurationSecondsParamName ErrRange) ErrSyntax = false) /\
  (bad_duration_without_name !! SampleDurationSecondsParamName = Some "3rr0r" /\
   New 64 5 0 bad_duration_without_name = Err ErrInvalidNetworkName /\
   errors_Is ErrInvalidNetworkName ErrSyntax = false).
Proof. split_and!; reflexivity. Qed.
